(** * video-mcp-server: the tool dispatcher and its three backends

    A shallow embedding of [video_mcp_server/server.py].

    - Python exceptions (instances of [Exception]) are a message string;
      a computation returns [Ok v] or [Raise msg].
    - Everything outside the process (the file system, [subprocess.run],
      the Groq API, yt-dlp, the environment) is a [World]: one oracle per
      operation, each a function of the history of requests made so far.
      Every request is appended to the [trace] of the state, so that the
      absence of a backend call is the absence of an event.
    - Python builtins whose exact behaviour is not part of the repository
      ([float], [int], [str.strip], float formatting, [os.path], [pathlib],
      [base64]) are the fields of a [PyLib].
    - A Python [float] is an exact rational ([Q]): rounding to binary64 and
      the non-finite values are outside the model.
    - The argument bag of a tool call carries, for each key, a value of the
      JSON type the tool's [inputSchema] declares for it. *)

From Stdlib Require Import ZArith QArith Qabs List String Ascii Bool Lia.
From Stdlib Require Import Sorting.Sorted Sorting.Permutation DecimalString.
Import ListNotations.

Local Open Scope list_scope.
Local Open Scope Z_scope.
Local Open Scope string_scope.

(* ------------------------------------------------------------------ *)
(** ** Results, events, the world *)

Inductive result (A : Type) : Type :=
| Ok (a : A)
| Raise (msg : string).

Arguments Ok {A} a.
Arguments Raise {A} msg.

(** [subprocess.CompletedProcess], the two attributes the server reads. *)
Record CompletedProcess := { returncode : Z; stdout : string }.

(** A Python value as yt-dlp's info dictionary holds it. *)
Inductive pyval :=
| PNone
| PInt (n : Z)
| PFloat (x : Q)
| PStr (s : string).

Definition pydict := list (string * pyval).

(** [ydl_opts] of [download_video]; [quiet] and [no_warnings] are [True] in
    both option dictionaries of the source. *)
Record YdlOpts := {
  opt_format : option string;
  opt_outtmpl : option string;
  opt_merge_output_format : option string
}.

Inductive event :=
| Makedirs (dir : string)
| Run (cmd : list string)
| Listdir (dir : string)
| ReadFile (file : string)
| ChatCompletion (model : string) (prompt : string) (image_urls : list string)
| AudioTranscription (model : string) (audio : string)
| ImportYtDlp
| YdlExtractInfo (opts : YdlOpts) (url : string)
| YdlDownload (opts : YdlOpts) (url : string)
| YdlPrepareFilename (opts : YdlOpts) (info : pydict).

Record World := {
  (** [os.environ.get("GROQ_API_KEY")] *)
  environ_GROQ_API_KEY : option string;
  (** [os.path.expanduser("~")] *)
  expanduser_home : string;
  (** [os.path.exists(p)] *)
  os_path_exists : list event -> string -> bool;
  (** [os.makedirs(d, exist_ok=True)] *)
  os_makedirs : list event -> string -> result unit;
  (** [subprocess.run(cmd, capture_output=True, text=True)] *)
  subprocess_run : list event -> list string -> result CompletedProcess;
  (** [os.listdir(d)] *)
  os_listdir : list event -> string -> result (list string);
  (** [open(p, "rb").read()] *)
  read_bytes : list event -> string -> result string;
  (** [AsyncGroq(api_key=k)] *)
  AsyncGroq : string -> result unit;
  (** [client.chat.completions.create(...)], then
      [response.choices[0].message.content] *)
  chat_completions_create :
    list event -> string -> string -> list string -> result (option string);
  (** [client.audio.transcriptions.create(...)], then [str(...)] of a
      truthy answer *)
  audio_transcriptions_create :
    list event -> string -> string -> result string;
  (** [import yt_dlp] *)
  import_yt_dlp : list event -> result unit;
  ydl_extract_info : list event -> YdlOpts -> string -> result pydict;
  ydl_download : list event -> YdlOpts -> string -> result unit;
  ydl_prepare_filename : list event -> YdlOpts -> pydict -> result string
}.

Record PyLib := {
  (** [float(s)] *)
  py_float : string -> result Q;
  (** [int(s)] *)
  py_int : string -> result Z;
  (** [s.strip()] *)
  str_strip : string -> string;
  (** [str(x)] of a float *)
  float_str : Q -> string;
  (** [format(x, ".2f")] and [format(x, ".1f")] *)
  format_2f : Q -> string;
  format_1f : Q -> string;
  (** [format(v, ",")] *)
  format_comma : pyval -> result string;
  (** [os.path.dirname], [os.path.join] *)
  os_path_dirname : string -> string;
  os_path_join : string -> string -> string;
  (** [Path(p).name], [Path(p).stem], [str(Path(p).with_suffix(".mp4"))] *)
  Path_name : string -> string;
  Path_stem : string -> string;
  Path_with_suffix_mp4 : string -> result string;
  (** [base64.b64encode(b).decode("utf-8")] *)
  b64encode : string -> string
}.

(* ------------------------------------------------------------------ *)
(** ** The process state and its monad *)

(** An [AIAnalyzer] instance: the key its client was built with. *)
Record AIAnalyzer := { client_api_key : string }.

Record state := {
  ai_analyzer : option AIAnalyzer;   (* the global [ai_analyzer] *)
  trace : list event
}.

Definition M (A : Type) : Type := state -> result A * state.

Definition ret {A} (a : A) : M A := fun s => (Ok a, s).

Definition raise {A} (msg : string) : M A := fun s => (Raise msg, s).

Definition bind {A B} (c : M A) (k : A -> M B) : M B :=
  fun s =>
    match c s with
    | (Ok a, s') => k a s'
    | (Raise msg, s') => (Raise msg, s')
    end.

(** [try: c  except Exception as e: h e] *)
Definition try_except {A} (c : M A) (h : string -> M A) : M A :=
  fun s =>
    match c s with
    | (Ok a, s') => (Ok a, s')
    | (Raise msg, s') => h msg s'
    end.

Definition lift {A} (r : result A) : M A := fun s => (r, s).

(** A request to the world: answered from the history, then recorded. *)
Definition perform {A} (e : event) (answer : list event -> result A) : M A :=
  fun s =>
    (answer (trace s),
     {| ai_analyzer := ai_analyzer s; trace := (trace s ++ [e])%list |}).

(** A read of the world that is not a backend operation. *)
Definition observe {A} (f : list event -> A) : M A :=
  fun s => (Ok (f (trace s)), s).

Definition get_ai_analyzer : M (option AIAnalyzer) :=
  fun s => (Ok (ai_analyzer s), s).

Definition set_ai_analyzer (a : AIAnalyzer) : M unit :=
  fun s => (Ok tt, {| ai_analyzer := Some a; trace := trace s |}).

Declare Scope monad_scope.
Delimit Scope monad_scope with monad.
Notation "x <- c ;; k" := (bind c (fun x => k))
  (at level 61, c at next level, right associativity) : monad_scope.
Notation "' p <- c ;; k" := (bind c (fun x => match x with p => k end))
  (at level 61, p pattern, c at next level, right associativity) : monad_scope.
Local Open Scope monad_scope.

(** [for x in l: acc = body acc x] *)
Fixpoint for_each {A B} (body : B -> A -> M B) (l : list A) (acc : B) : M B :=
  match l with
  | [] => ret acc
  | x :: l' => acc' <- body acc x ;; for_each body l' acc'
  end.

(* ------------------------------------------------------------------ *)
(** ** Python strings and integers *)

(** [str(n)] of an [int]. *)
Definition str_int (n : Z) : string := NilZero.string_of_int (Z.to_int n).

(** [f"{i:03d}"] for [i >= 0]. *)
Definition format_03d (i : Z) : string :=
  let d := str_int i in
  match String.length d with
  | 1%nat => "00" ++ d
  | 2%nat => "0" ++ d
  | _ => d
  end.

(** [c in s] for a one-character [c]. *)
Fixpoint str_contains (c : ascii) (s : string) : bool :=
  match s with
  | EmptyString => false
  | String a s' => Ascii.eqb a c || str_contains c s'
  end.

(** [s.split(c)] for a one-character separator. *)
Fixpoint str_split (c : ascii) (s : string) : list string :=
  match s with
  | EmptyString => [EmptyString]
  | String a s' =>
      if Ascii.eqb a c then EmptyString :: str_split c s'
      else match str_split c s' with
           | [] => [String a EmptyString]
           | w :: ws => String a w :: ws
           end
  end.

Definition startswith (s p : string) : bool := String.prefix p s.

Definition endswith (s p : string) : bool :=
  let n := String.length s in
  let k := String.length p in
  Nat.leb k n && String.eqb (String.substring (n - k) k s) p.

(** [s[:n]] *)
Definition str_take (n : nat) (s : string) : string := String.substring 0 n s.

(** [sep.join(l)] *)
Definition str_join (sep : string) (l : list string) : string :=
  String.concat sep l.

(** [range(a, b)] *)
Definition py_range (a b : Z) : list Z :=
  map (fun k => a + Z.of_nat k) (seq 0 (Z.to_nat (b - a))).

(** [[f(i, x) for i, x in enumerate(l)]] *)
Fixpoint enumerate_from {A} (i : Z) (l : list A) : list (Z * A) :=
  match l with
  | [] => []
  | x :: l' => (i, x) :: enumerate_from (i + 1) l'
  end.

(** [sorted(l)] on strings: the order is [String.leb], character by
    character; equal strings are identical, so any sorting algorithm
    returns the list Python's does. *)
Fixpoint insert_sorted (x : string) (l : list string) : list string :=
  match l with
  | [] => [x]
  | y :: l' => if String.leb x y then x :: l else y :: insert_sorted x l'
  end.

Fixpoint sorted (l : list string) : list string :=
  match l with
  | [] => []
  | x :: l' => insert_sorted x (sorted l')
  end.

(** [min(x, cap)]: Python returns [cap] only when [cap < x]. *)
Definition py_min (x cap : Z) : Z := if (cap <? x)%Z then cap else x.

(* ------------------------------------------------------------------ *)
(** ** The data model *)

Definition SERVER_NAME := "video-mcp-server".
Definition SERVER_VERSION := "0.1.0".
Definition VISION_MODEL := "meta-llama/llama-4-scout-17b-16e-instruct".
Definition AUDIO_MODEL := "whisper-large-v3-turbo".

(** The dictionary [get_video_info] returns on its normal path. *)
Record VideoMetadata := {
  duration : Q;
  width : Z;
  height : Z;
  codec : string;
  path : string;
  filename : string
}.

(** ... and the one of its [except] branch: ["error" in info]. *)
Inductive video_info :=
| Info (m : VideoMetadata)
| InfoError (error : string) (path : string).

(** The dictionary [AIAnalyzer.analyze_video] returns. *)
Record AnalysisResult := {
  visual_analysis : string;
  frames : list string;
  transcript : option string;
  audio_error : option string
}.

Inductive analysis :=
| Analysis (r : AnalysisResult)
| AnalysisError (error : string).

(** The dictionary [download_video] returns. *)
Record DownloadInfo := {
  dl_video_path : string;
  dl_title : pyval;
  dl_duration : pyval;
  dl_uploader : pyval;
  dl_description : string;
  dl_output_dir : string
}.

Inductive download_result :=
| Downloaded (d : DownloadInfo)
| DownloadError (error : string).

(** The dictionary [get_video_info_url] returns. *)
Record RemoteVideoInfo := {
  yt_title : pyval;
  yt_duration : pyval;
  yt_uploader : pyval;
  yt_description : string;
  yt_view_count : pyval;
  yt_like_count : pyval;
  yt_upload_date : pyval;
  yt_url : string
}.

Inductive remote_info :=
| RemoteInfo (r : RemoteVideoInfo)
| RemoteError (error : string).

Record TextContent := { type : string; text : string }.

(** The argument bag: each key absent ([None]) or holding a value of the
    type its schema declares. *)
Record Arguments := {
  arg_video_path : option string;
  arg_num_frames : option Z;
  arg_segment_duration : option Z;
  arg_output_dir : option string;
  arg_output_path : option string;
  arg_url : option string;
  arg_quality : option string;
  arg_prompt : option string
}.

(** [d.get(k, default)] *)
Definition get_or {A} (o : option A) (default : A) : A :=
  match o with
  | Some v => v
  | None => default
  end.

Fixpoint dict_lookup (d : pydict) (k : string) : option pyval :=
  match d with
  | [] => None
  | (k', v) :: d' => if String.eqb k' k then Some v else dict_lookup d' k
  end.

Definition dict_get (d : pydict) (k : string) (default : pyval) : pyval :=
  get_or (dict_lookup d k) default.

(* ------------------------------------------------------------------ *)
(** ** class VideoProcessor *)

Section Server.

Variable py : PyLib.
Variable w : World.

Definition run (cmd : list string) : M CompletedProcess :=
  perform (Run cmd) (fun h => subprocess_run w h cmd).

Definition makedirs (dir : string) : M unit :=
  perform (Makedirs dir) (fun h => os_makedirs w h dir).

Definition listdir (dir : string) : M (list string) :=
  perform (Listdir dir) (fun h => os_listdir w h dir).

Definition exists_ (p : string) : M bool :=
  observe (fun h => os_path_exists w h p).

Definition duration_cmd (video_path : string) : list string :=
  ["ffprobe"; "-v"; "error"; "-show_entries"; "format=duration";
   "-of"; "default=noprint_wrappers=1:nokey=1"; video_path].

Definition size_cmd (video_path : string) : list string :=
  ["ffprobe"; "-v"; "error"; "-select_streams"; "v:0";
   "-show_entries"; "stream=width,height"; "-of"; "csv=s=x:p=0"; video_path].

Definition codec_cmd (video_path : string) : list string :=
  ["ffprobe"; "-v"; "error"; "-select_streams"; "v:0";
   "-show_entries"; "stream=codec_name";
   "-of"; "default=noprint_wrappers=1:nokey=1"; video_path].

(** [width, height = map(int, parts)]: [map] is lazy, so the unpacking
    converts the items one at a time and asks for a third one before it
    complains about it. *)
Definition unpack_two_ints (parts : list string) : result (Z * Z) :=
  match parts with
  | [] => Raise "not enough values to unpack (expected 2, got 0)"
  | a :: rest =>
      match py_int py a with
      | Raise e => Raise e
      | Ok wd =>
          match rest with
          | [] => Raise "not enough values to unpack (expected 2, got 1)"
          | b :: rest' =>
              match py_int py b with
              | Raise e => Raise e
              | Ok ht =>
                  match rest' with
                  | [] => Ok (wd, ht)
                  | c :: _ =>
                      match py_int py c with
                      | Raise e => Raise e
                      | Ok _ => Raise "too many values to unpack (expected 2)"
                      end
                  end
              end
          end
      end
  end.

Definition get_video_info (video_path : string) : M video_info :=
  try_except
    (duration_result <- run (duration_cmd video_path) ;;
     duration <- (if (returncode duration_result =? 0)%Z
                  then lift (py_float py (str_strip py (stdout duration_result)))
                  else ret 0%Q) ;;
     size_result <- run (size_cmd video_path) ;;
     '(width, height) <-
        (if (returncode size_result =? 0)%Z
            && str_contains "x" (stdout size_result)
         then lift (unpack_two_ints
                      (str_split "x" (str_strip py (stdout size_result))))
         else ret (0, 0)) ;;
     codec_result <- run (codec_cmd video_path) ;;
     let codec := if (returncode codec_result =? 0)%Z
                  then str_strip py (stdout codec_result)
                  else "unknown" in
     ret (Info {| duration := duration; width := width; height := height;
                  codec := codec; path := video_path;
                  filename := Path_name py video_path |}))
    (fun e => ret (InfoError e video_path)).

(** [os.path.dirname(video_path) or "."] *)
Definition dirname_or_dot (video_path : string) : string :=
  let d := os_path_dirname py video_path in
  if String.eqb d EmptyString then "." else d.

(** [if output_dir is None: output_dir = os.path.dirname(video_path) or "."] *)
Definition default_output_dir (video_path : string)
    (output_dir : option string) : string :=
  match output_dir with
  | None => dirname_or_dot video_path
  | Some d => d
  end.

(** [duration / (num_frames + 1)], a float by an int. *)
Definition float_div_int (x : Q) (n : Z) : result Q :=
  if (n =? 0)%Z then Raise "float division by zero"
  else Ok (x / inject_Z n)%Q.

(** [timestamp = i * interval] *)
Definition frame_timestamp (interval : Q) (i : Z) : Q :=
  (inject_Z i * interval)%Q.

Definition frame_cmd (video_path : string) (timestamp : Q)
    (frame_path : string) : list string :=
  ["ffmpeg"; "-y"; "-i"; video_path; "-ss"; float_str py timestamp;
   "-vframes"; "1"; "-q:v"; "2"; frame_path].

Definition frame_path_of (video_path output_dir : string) (i : Z) : string :=
  os_path_join py output_dir
    (Path_stem py video_path ++ "_frame_" ++ format_03d i ++ ".jpg").

Definition extract_frames (video_path : string) (num_frames : Z)
    (output_dir : option string) : M (list string) :=
  let output_dir := default_output_dir video_path output_dir in
  _ <- makedirs output_dir ;;
  info <- get_video_info video_path ;;
  match info with
  | InfoError _ _ => ret []
  | Info m =>
      let duration := duration m in
      if Qle_bool duration 0 then ret []
      else
        interval <- lift (float_div_int duration (num_frames + 1)) ;;
        for_each
          (fun extracted_frames i =>
             let timestamp := frame_timestamp interval i in
             let frame_path := frame_path_of video_path output_dir i in
             result <- run (frame_cmd video_path timestamp frame_path) ;;
             present <- (if (returncode result =? 0)%Z
                         then exists_ frame_path else ret false) ;;
             ret (if present then (extracted_frames ++ [frame_path])%list
                  else extracted_frames))
          (py_range 1 (num_frames + 1))
          []
  end.

Definition audio_cmd (video_path output_path : string) : list string :=
  ["ffmpeg"; "-y"; "-i"; video_path; "-vn"; "-acodec"; "libmp3lame";
   "-q:a"; "2"; output_path].

Definition extract_audio (video_path : string) (output_path : option string)
    : M string :=
  let output_path :=
    match output_path with
    | None => os_path_join py (dirname_or_dot video_path)
                (Path_stem py video_path ++ "_audio.mp3")
    | Some p => p
    end in
  result <- run (audio_cmd video_path output_path) ;;
  present <- (if (returncode result =? 0)%Z
              then exists_ output_path else ret false) ;;
  if present then ret output_path else ret EmptyString.

Definition segment_cmd (video_path : string) (segment_duration : Z)
    (output_pattern : string) : list string :=
  ["ffmpeg"; "-y"; "-i"; video_path; "-c"; "copy"; "-map"; "0";
   "-segment_time"; str_int segment_duration; "-f"; "segment";
   "-reset_timestamps"; "1"; output_pattern].

Definition is_segment_of (base_name f : string) : bool :=
  startswith f (base_name ++ "_segment_") && endswith f ".mp4".

Definition split_video (video_path : string) (segment_duration : Z)
    (output_dir : option string) : M (list string) :=
  let output_dir := default_output_dir video_path output_dir in
  _ <- makedirs output_dir ;;
  info <- get_video_info video_path ;;
  match info with
  | InfoError _ _ => ret []
  | Info m =>
      if Qle_bool (duration m) 0 then ret []
      else
        let output_pattern :=
          os_path_join py output_dir
            (Path_stem py video_path ++ "_segment_%03d.mp4") in
        _ <- run (segment_cmd video_path segment_duration output_pattern) ;;
        let base_name := Path_stem py video_path in
        files <- listdir output_dir ;;
        let segments :=
          map (os_path_join py output_dir)
              (filter (is_segment_of base_name) files) in
        ret (sorted segments)
  end.

(* ------------------------------------------------------------------ *)
(** ** Values of yt-dlp's info dictionary *)

Definition nl : string := String (ascii_of_nat 10) EmptyString.

Definition type_name (v : pyval) : string :=
  match v with
  | PNone => "NoneType"
  | PInt _ => "int"
  | PFloat _ => "float"
  | PStr _ => "str"
  end.

(** [str(v)], as an f-string field without format renders it *)
Definition py_str (v : pyval) : string :=
  match v with
  | PNone => "None"
  | PInt n => str_int n
  | PFloat x => float_str py x
  | PStr s => s
  end.

(** [bool(v)] *)
Definition truthy (v : pyval) : bool :=
  match v with
  | PNone => false
  | PInt n => negb (n =? 0)%Z
  | PFloat x => negb (Qeq_bool x 0)
  | PStr s => negb (String.eqb s EmptyString)
  end.

(** [v[:n]] *)
Definition py_slice_to (n : nat) (v : pyval) : result string :=
  match v with
  | PStr s => Ok (str_take n s)
  | _ => Raise ("'" ++ type_name v ++ "' object is not subscriptable")
  end.

(** [v / 60] *)
Definition py_div_60 (v : pyval) : result Q :=
  match v with
  | PInt n => Ok (inject_Z n / 60)%Q
  | PFloat x => Ok (x / 60)%Q
  | _ => Raise ("unsupported operand type(s) for /: '" ++ type_name v
                ++ "' and 'int'")
  end.

(* ------------------------------------------------------------------ *)
(** ** class YouTubeDownloader *)

Definition quality_formats : list (string * string) :=
  [("best", "bestvideo[ext=mp4]+bestaudio[ext=m4a]/best[ext=mp4]/best");
   ("1080p", "bestvideo[height<=1080][ext=mp4]+bestaudio[ext=m4a]/best[height<=1080]");
   ("720p", "bestvideo[height<=720][ext=mp4]+bestaudio[ext=m4a]/best[height<=720]");
   ("480p", "bestvideo[height<=480][ext=mp4]+bestaudio[ext=m4a]/best[height<=480]");
   ("360p", "bestvideo[height<=360][ext=mp4]+bestaudio[ext=m4a]/best[height<=360]")].

Fixpoint formats_lookup (d : list (string * string)) (k : string)
    : option string :=
  match d with
  | [] => None
  | (k', v) :: d' => if String.eqb k' k then Some v else formats_lookup d' k
  end.

(** [quality_formats.get(quality, quality_formats["720p"])] *)
Definition format_spec_of (quality : string) : string :=
  get_or (formats_lookup quality_formats quality)
    "bestvideo[height<=720][ext=mp4]+bestaudio[ext=m4a]/best[height<=720]".

(** The scan of the output directory after a download whose expected
    file is missing: the first entry that starts with the base name and is
    not a partial file. *)
Fixpoint first_downloaded (base_name : string) (files : list string)
    : option string :=
  match files with
  | [] => None
  | f :: files' =>
      if startswith f base_name && negb (endswith f ".part") then Some f
      else first_downloaded base_name files'
  end.

Definition download_video (url : string) (output_dir : option string)
    (quality : string) : M download_result :=
  _ <- perform ImportYtDlp (import_yt_dlp w) ;;
  let output_dir :=
    match output_dir with
    | None => os_path_join py (expanduser_home w) "video-downloads"
    | Some d => d
    end in
  _ <- makedirs output_dir ;;
  let format_spec := format_spec_of quality in
  let output_template := os_path_join py output_dir "%(title)s.%(ext)s" in
  let ydl_opts := {| opt_format := Some format_spec;
                     opt_outtmpl := Some output_template;
                     opt_merge_output_format := Some "mp4" |} in
  try_except
    (info <- perform (YdlExtractInfo ydl_opts url)
               (fun h => ydl_extract_info w h ydl_opts url) ;;
     let title := dict_get info "title" (PStr "unknown") in
     let duration := dict_get info "duration" (PInt 0) in
     let uploader := dict_get info "uploader" (PStr "unknown") in
     description <-
       lift (py_slice_to 200 (dict_get info "description" (PStr EmptyString))) ;;
     _ <- perform (YdlDownload ydl_opts url)
            (fun h => ydl_download w h ydl_opts url) ;;
     filename <- perform (YdlPrepareFilename ydl_opts info)
                   (fun h => ydl_prepare_filename w h ydl_opts info) ;;
     video_path <- lift (Path_with_suffix_mp4 py filename) ;;
     present <- exists_ video_path ;;
     if present then
       ret (Downloaded {| dl_video_path := video_path; dl_title := title;
                          dl_duration := duration; dl_uploader := uploader;
                          dl_description := description;
                          dl_output_dir := output_dir |})
     else
       let base_name := Path_stem py filename in
       files <- listdir output_dir ;;
       match first_downloaded base_name files with
       | Some f =>
           ret (Downloaded {| dl_video_path := os_path_join py output_dir f;
                              dl_title := title; dl_duration := duration;
                              dl_uploader := uploader;
                              dl_description := description;
                              dl_output_dir := output_dir |})
       | None => ret (DownloadError "Download completed but file not found")
       end)
    (fun e => ret (DownloadError e)).

Definition get_video_info_url (url : string) : M remote_info :=
  _ <- perform ImportYtDlp (import_yt_dlp w) ;;
  try_except
    (let ydl_opts := {| opt_format := None; opt_outtmpl := None;
                        opt_merge_output_format := None |} in
     info <- perform (YdlExtractInfo ydl_opts url)
               (fun h => ydl_extract_info w h ydl_opts url) ;;
     description <-
       lift (py_slice_to 500 (dict_get info "description" (PStr EmptyString))) ;;
     ret (RemoteInfo
            {| yt_title := dict_get info "title" (PStr "unknown");
               yt_duration := dict_get info "duration" (PInt 0);
               yt_uploader := dict_get info "uploader" (PStr "unknown");
               yt_description := description;
               yt_view_count := dict_get info "view_count" (PInt 0);
               yt_like_count := dict_get info "like_count" (PInt 0);
               yt_upload_date := dict_get info "upload_date" (PStr "unknown");
               yt_url := url |}))
    (fun e => ret (RemoteError e)).

(* ------------------------------------------------------------------ *)
(** ** class AIAnalyzer *)

Definition analyze_frames (frame_paths : list string) (prompt : string)
    (model : string) : M string :=
  image_urls <-
    for_each
      (fun content frame_path =>
         bytes <- perform (ReadFile frame_path)
                    (fun h => read_bytes w h frame_path) ;;
         ret (content
              ++ [("data:image/jpeg;base64," ++ b64encode py bytes)%string])%list)
      frame_paths [] ;;
  content <- perform (ChatCompletion model prompt image_urls)
               (fun h => chat_completions_create w h model prompt image_urls) ;;
  ret (get_or content EmptyString).

Definition transcribe_audio (audio_path : string) : M string :=
  bytes <- perform (ReadFile audio_path) (fun h => read_bytes w h audio_path) ;;
  perform (AudioTranscription AUDIO_MODEL bytes)
    (fun h => audio_transcriptions_create w h AUDIO_MODEL bytes).

Definition analyze_video (video_path prompt : string) (num_frames : Z)
    (include_audio : bool) : M analysis :=
  frames <- extract_frames video_path num_frames None ;;
  match frames with
  | [] => ret (AnalysisError "Failed to extract frames from video")
  | _ :: _ =>
      visual_result <- analyze_frames frames prompt VISION_MODEL ;;
      let result := {| visual_analysis := visual_result; frames := frames;
                       transcript := None; audio_error := None |} in
      if include_audio then
        audio_path <- extract_audio video_path None ;;
        if String.eqb audio_path EmptyString then ret (Analysis result)
        else
          try_except
            (transcript <- transcribe_audio audio_path ;;
             ret (Analysis
                    {| visual_analysis := visual_result; frames := frames;
                       transcript := Some transcript;
                       audio_error := None |}))
            (fun e =>
               ret (Analysis
                      {| visual_analysis := visual_result; frames := frames;
                         transcript := None; audio_error := Some e |}))
      else ret (Analysis result)
  end.

(* ------------------------------------------------------------------ *)
(** ** Module level: the credential *)

(** [bool(os.environ.get("GROQ_API_KEY"))] *)
Definition check_api_key : bool :=
  match environ_GROQ_API_KEY w with
  | Some k => negb (String.eqb k EmptyString)
  | None => false
  end.

Definition init_analyzer : M bool :=
  match environ_GROQ_API_KEY w with
  | Some api_key =>
      if String.eqb api_key EmptyString then ret false
      else
        try_except
          (_ <- lift (AsyncGroq w api_key) ;;
           _ <- set_ai_analyzer {| client_api_key := api_key |} ;;
           ret true)
          (fun _ => ret false)
  | None => ret false
  end.

(* ------------------------------------------------------------------ *)
(** ** call_tool *)

Definition is_ai_tool (name : string) : bool :=
  existsb (String.eqb name)
    ["analyze_video"; "summarize_video"; "transcribe_video";
     "analyze_video_complete"].

Definition text_content (t : string) : list TextContent :=
  [{| type := "text"; text := t |}].

Definition missing_key_text : string :=
  "Error: GROQ_API_KEY environment variable is required for AI features."
  ++ nl ++ "Set it with: export GROQ_API_KEY=your-key"
  ++ nl ++ "Or use FFmpeg-only tools: get_video_info, extract_video_frames, extract_video_audio, split_video".

Definition default_prompt : string :=
  "Describe this video in detail, including scenes, actions, objects, people, and context".

Definition summary_prompt : string :=
  "Analyze this video and provide a comprehensive summary:"
  ++ nl ++ "1. Main topic or subject"
  ++ nl ++ "2. Key events or actions in chronological order"
  ++ nl ++ "3. Setting and context"
  ++ nl ++ "4. Visual elements (objects, people, text visible)"
  ++ nl ++ "5. Overall narrative or message"
  ++ nl ++ "6. Important details worth noting".

Definition complete_prompt : string :=
  "Analyze this video thoroughly. Describe:"
  ++ nl ++ "1. Visual scenes, settings, and environments"
  ++ nl ++ "2. Actions, movements, and events"
  ++ nl ++ "3. Objects, people, and visual elements"
  ++ nl ++ "4. Visual context and atmosphere".

(** ["\n".join([f"  {i + 1}. {x}" for i, x in enumerate(l)])] *)
Definition numbered_list (l : list string) : string :=
  str_join nl
    (map (fun ix => ("  " ++ str_int (fst ix + 1) ++ ". " ++ snd ix)%string)
         (enumerate_from 0 l)).

Definition len {A} (l : list A) : Z := Z.of_nat (List.length l).

Definition video_information (m : VideoMetadata) : string :=
  "Video Information:"
  ++ nl ++ "- File: " ++ filename m
  ++ nl ++ "- Duration: " ++ format_2f py (duration m) ++ " seconds ("
  ++ format_1f py (duration m / 60)%Q ++ " minutes)"
  ++ nl ++ "- Resolution: " ++ str_int (width m) ++ "x" ++ str_int (height m)
  ++ nl ++ "- Video Codec: " ++ codec m.

Definition tool_get_video_info (video_path : string) : M string :=
  info <- get_video_info video_path ;;
  match info with
  | InfoError e _ => ret ("Error: " ++ e)
  | Info m => ret (video_information m)
  end.

Definition tool_extract_video_frames (arguments : Arguments)
    (video_path : string) : M string :=
  let num_frames := py_min (get_or (arg_num_frames arguments) 5) 20 in
  let output_dir := arg_output_dir arguments in
  frames <- extract_frames video_path num_frames output_dir ;;
  match frames with
  | _ :: _ =>
      let frame_list := numbered_list frames in
      let result := "Successfully extracted " ++ str_int (len frames)
                    ++ " frames:" ++ nl ++ frame_list in
      if negb check_api_key then
        ret (result ++ nl ++ nl
             ++ "You can analyze these images with your AI model (Kimi).")
      else ret result
  | [] => ret "Error: Failed to extract frames from video."
  end.

Definition tool_extract_video_audio (arguments : Arguments)
    (video_path : string) : M string :=
  let output_path := arg_output_path arguments in
  audio_file <- extract_audio video_path output_path ;;
  if negb (String.eqb audio_file EmptyString) then
    let result := "Successfully extracted audio to:" ++ nl ++ "  "
                  ++ audio_file in
    if check_api_key then
      ret (result ++ nl ++ nl ++ "You can transcribe this with: transcribe_video")
    else ret result
  else ret "Error: Failed to extract audio from video.".

Definition tool_split_video (arguments : Arguments) (video_path : string)
    : M string :=
  let segment_duration := get_or (arg_segment_duration arguments) 60 in
  let output_dir := arg_output_dir arguments in
  segments <- split_video video_path segment_duration output_dir ;;
  match segments with
  | _ :: _ =>
      let segment_list := numbered_list segments in
      ret ("Successfully split into " ++ str_int (len segments)
           ++ " segments (" ++ str_int segment_duration ++ "s each):" ++ nl
           ++ segment_list)
  | [] => ret "Error: Failed to split video into segments."
  end.

Definition youtube_information (r : RemoteVideoInfo) : result string :=
  match py_div_60 (yt_duration r) with
  | Raise e => Raise e
  | Ok duration_min =>
      match format_comma py (yt_view_count r) with
      | Raise e => Raise e
      | Ok views =>
          match format_comma py (yt_like_count r) with
          | Raise e => Raise e
          | Ok likes =>
              Ok ("YouTube Video Information:"
                  ++ nl ++ "- Title: " ++ py_str (yt_title r)
                  ++ nl ++ "- Duration: " ++ py_str (yt_duration r)
                  ++ " seconds (" ++ format_1f py duration_min ++ " minutes)"
                  ++ nl ++ "- Uploader: " ++ py_str (yt_uploader r)
                  ++ nl ++ "- Views: " ++ views
                  ++ nl ++ "- Likes: " ++ likes
                  ++ nl ++ "- Upload Date: " ++ py_str (yt_upload_date r)
                  ++ nl ++ "- Description: "
                  ++ str_take 200 (yt_description r) ++ "..."
                  ++ nl ++ nl
                  ++ "To download this video, use: download_youtube_video")
          end
      end
  end.

Definition tool_get_youtube_info (arguments : Arguments) : M string :=
  let url := get_or (arg_url arguments) EmptyString in
  if String.eqb url EmptyString then ret "Error: YouTube URL is required"
  else
    info <- get_video_info_url url ;;
    match info with
    | RemoteInfo r => lift (youtube_information r)
    | RemoteError e => ret ("Error: " ++ e)
    end.

Definition download_report (d : DownloadInfo) : result string :=
  let duration := dl_duration d in
  match (if truthy duration then py_div_60 duration else Ok 0%Q) with
  | Raise e => Raise e
  | Ok duration_min =>
      Ok ("Successfully downloaded YouTube video!"
          ++ nl ++ nl ++ "Title: " ++ py_str (dl_title d)
          ++ nl ++ "Duration: " ++ py_str duration ++ " seconds ("
          ++ format_1f py duration_min ++ " minutes)"
          ++ nl ++ "Uploader: " ++ py_str (dl_uploader d)
          ++ nl ++ "Saved to: " ++ dl_video_path d
          ++ nl ++ nl ++ "You can now analyze this video:"
          ++ nl ++ "- Extract frames: extract_video_frames"
          ++ nl ++ "- Extract audio: extract_video_audio"
          ++ nl ++ "- Get info: get_video_info"
          ++ nl ++ "- AI analysis: analyze_video (requires API key)")
  end.

Definition tool_download_youtube_video (arguments : Arguments) : M string :=
  let url := get_or (arg_url arguments) EmptyString in
  if String.eqb url EmptyString then ret "Error: YouTube URL is required"
  else
    let quality := get_or (arg_quality arguments) "720p" in
    let output_dir := arg_output_dir arguments in
    download_result <- download_video url output_dir quality ;;
    match download_result with
    | Downloaded d => lift (download_report d)
    | DownloadError e => ret ("Error downloading video: " ++ e)
    end.

Definition tool_analyze_video (arguments : Arguments) (video_path : string)
    : M string :=
  let prompt := get_or (arg_prompt arguments) default_prompt in
  let num_frames := py_min (get_or (arg_num_frames arguments) 5) 10 in
  a <- get_ai_analyzer ;;
  match a with
  | Some _ =>
      analysis <- analyze_video video_path prompt num_frames false ;;
      match analysis with
      | AnalysisError e => ret ("Error: " ++ e)
      | Analysis r =>
          ret ("=== AI Video Analysis ===" ++ nl ++ nl ++ visual_analysis r
               ++ nl ++ nl ++ "Analyzed " ++ str_int (len (frames r))
               ++ " frames.")
      end
  | None => ret "Error: AI analyzer not available"
  end.

Definition tool_summarize_video (arguments : Arguments) (video_path : string)
    : M string :=
  let num_frames := py_min (get_or (arg_num_frames arguments) 8) 10 in
  a <- get_ai_analyzer ;;
  match a with
  | Some _ =>
      analysis <- analyze_video video_path summary_prompt num_frames false ;;
      match analysis with
      | AnalysisError e => ret ("Error: " ++ e)
      | Analysis r =>
          ret ("=== Video Summary ===" ++ nl ++ nl ++ visual_analysis r)
      end
  | None => ret "Error: AI analyzer not available"
  end.

Definition tool_transcribe_video (video_path : string) : M string :=
  a <- get_ai_analyzer ;;
  match a with
  | Some _ =>
      audio_path <- extract_audio video_path None ;;
      if String.eqb audio_path EmptyString
      then ret "Error: Failed to extract audio from video"
      else
        try_except
          (transcript <- transcribe_audio audio_path ;;
           ret ("=== Audio Transcription ===" ++ nl ++ nl ++ transcript))
          (fun e => ret ("Error transcribing audio: " ++ e))
  | None => ret "Error: AI analyzer not available"
  end.

Definition tool_analyze_video_complete (arguments : Arguments)
    (video_path : string) : M string :=
  let num_frames := py_min (get_or (arg_num_frames arguments) 5) 10 in
  a <- get_ai_analyzer ;;
  match a with
  | Some _ =>
      analysis <- analyze_video video_path complete_prompt num_frames true ;;
      match analysis with
      | AnalysisError e => ret ("Error: " ++ e)
      | Analysis r =>
          let result := "=== VISUAL ANALYSIS ===" ++ nl ++ visual_analysis r in
          match transcript r, audio_error r with
          | Some t, _ =>
              ret (result ++ nl ++ nl ++ "=== AUDIO TRANSCRIPTION ===" ++ nl ++ t)
          | None, Some e =>
              ret (result ++ nl ++ nl ++ "Note: Audio analysis unavailable ("
                   ++ e ++ ")")
          | None, None => ret result
          end
      end
  | None => ret "Error: AI analyzer not available"
  end.

(** The [if name == ... elif ...] chain. *)
Definition route (name : string) (arguments : Arguments)
    (video_path : string) : M string :=
  if String.eqb name "get_video_info" then
    tool_get_video_info video_path
  else if String.eqb name "extract_video_frames" then
    tool_extract_video_frames arguments video_path
  else if String.eqb name "extract_video_audio" then
    tool_extract_video_audio arguments video_path
  else if String.eqb name "split_video" then
    tool_split_video arguments video_path
  else if String.eqb name "get_youtube_info" then
    tool_get_youtube_info arguments
  else if String.eqb name "download_youtube_video" then
    tool_download_youtube_video arguments
  else if String.eqb name "analyze_video" then
    tool_analyze_video arguments video_path
  else if String.eqb name "summarize_video" then
    tool_summarize_video arguments video_path
  else if String.eqb name "transcribe_video" then
    tool_transcribe_video video_path
  else if String.eqb name "analyze_video_complete" then
    tool_analyze_video_complete arguments video_path
  else ret ("Unknown tool: " ++ name).

(** The body of the outer [try]. *)
Definition call_tool_body (name : string) (arguments : Arguments)
    : M (list TextContent) :=
  available <-
    (if is_ai_tool name then
       a <- get_ai_analyzer ;;
       match a with
       | Some _ => ret true
       | None => init_analyzer
       end
     else ret true) ;;
  if negb available then ret (text_content missing_key_text)
  else
    let video_path := get_or (arg_video_path arguments) EmptyString in
    missing <-
      (if String.eqb video_path EmptyString then ret false
       else present <- exists_ video_path ;; ret (negb present)) ;;
    if missing
    then ret (text_content ("Error: Video file not found: " ++ video_path))
    else
      result <- route name arguments video_path ;;
      ret (text_content result).

Definition call_tool (name : string) (arguments : Arguments)
    : M (list TextContent) :=
  try_except (call_tool_body name arguments)
    (fun e => ret (text_content ("Error: " ++ e))).

End Server.

(* ------------------------------------------------------------------ *)
(** ** list_tools: the catalog

    The names, the parameters with their constraints and the required
    keys; the descriptions are documentation and are left out. *)

Inductive ParamSchema :=
| StringParam (default : option string) (enum : option (list string))
| IntegerParam (default minimum maximum : Z).

Record Tool := {
  tool_name : string;
  properties : list (string * ParamSchema);
  required : list string
}.

Definition video_path_param : string * ParamSchema :=
  ("video_path", StringParam None None).

Definition list_tools : list Tool :=
  [ {| tool_name := "get_video_info";
       properties := [video_path_param];
       required := ["video_path"] |};
    {| tool_name := "extract_video_frames";
       properties := [video_path_param;
                      ("num_frames", IntegerParam 5 1 20);
                      ("output_dir", StringParam None None)];
       required := ["video_path"] |};
    {| tool_name := "extract_video_audio";
       properties := [video_path_param;
                      ("output_path", StringParam None None)];
       required := ["video_path"] |};
    {| tool_name := "split_video";
       properties := [video_path_param;
                      ("segment_duration", IntegerParam 60 10 300);
                      ("output_dir", StringParam None None)];
       required := ["video_path"] |};
    {| tool_name := "get_youtube_info";
       properties := [("url", StringParam None None)];
       required := ["url"] |};
    {| tool_name := "download_youtube_video";
       properties := [("url", StringParam None None);
                      ("quality",
                       StringParam (Some "720p")
                         (Some ["360p"; "480p"; "720p"; "1080p"; "best"]));
                      ("output_dir", StringParam None None)];
       required := ["url"] |};
    {| tool_name := "analyze_video";
       properties := [video_path_param;
                      ("prompt",
                       StringParam
                         (Some "Describe this video in detail, including scenes, actions, objects, people, and context")
                         None);
                      ("num_frames", IntegerParam 5 1 10)];
       required := ["video_path"] |};
    {| tool_name := "summarize_video";
       properties := [video_path_param;
                      ("num_frames", IntegerParam 8 3 10)];
       required := ["video_path"] |};
    {| tool_name := "transcribe_video";
       properties := [video_path_param];
       required := ["video_path"] |};
    {| tool_name := "analyze_video_complete";
       properties := [video_path_param;
                      ("num_frames", IntegerParam 5 1 10)];
       required := ["video_path"] |} ].

Fixpoint find_tool (tools : list Tool) (name : string) : option Tool :=
  match tools with
  | [] => None
  | t :: tools' =>
      if String.eqb (tool_name t) name then Some t else find_tool tools' name
  end.

Fixpoint find_param (ps : list (string * ParamSchema)) (key : string)
    : option ParamSchema :=
  match ps with
  | [] => None
  | (k, p) :: ps' => if String.eqb k key then Some p else find_param ps' key
  end.

Definition declared_param (name key : string) : option ParamSchema :=
  match find_tool list_tools name with
  | Some t => find_param (properties t) key
  | None => None
  end.


Definition declared_enum (name key : string) : option (list string) :=
  match declared_param name key with
  | Some (StringParam _ e) => e
  | _ => None
  end.

Definition declares (name key : string) : bool :=
  match declared_param name key with
  | Some _ => true
  | None => false
  end.

(* ------------------------------------------------------------------ *)
(** ** An instance of [PyLib]

    Used to run the model on concrete inputs.  Numbers are read and
    written in plain decimal notation, paths are POSIX paths. *)

Definition is_space (c : ascii) : bool :=
  let n := nat_of_ascii c in
  (Nat.leb 9 n && Nat.leb n 13) || Nat.eqb n 32.

Fixpoint lstrip (s : string) : string :=
  match s with
  | EmptyString => EmptyString
  | String c s' => if is_space c then lstrip s' else s
  end.

Fixpoint rstrip (s : string) : string :=
  match s with
  | EmptyString => EmptyString
  | String c s' =>
      match rstrip s' with
      | EmptyString => if is_space c then EmptyString else String c EmptyString
      | t => String c t
      end
  end.

Definition strip (s : string) : string := rstrip (lstrip s).

Definition digit_of (c : ascii) : option Z :=
  let n := Z.of_nat (nat_of_ascii c) in
  if (48 <=? n)%Z && (n <=? 57)%Z then Some (n - 48) else None.

Fixpoint digits_value (s : string) (acc : Z) : option Z :=
  match s with
  | EmptyString => Some acc
  | String c s' =>
      match digit_of c with
      | Some d => digits_value s' (10 * acc + d)
      | None => None
      end
  end.

Definition split_sign (s : string) : bool * string :=
  match s with
  | String "-" s' => (true, s')
  | String "+" s' => (false, s')
  | _ => (false, s)
  end.

Definition int_literal (s : string) : option Z :=
  let (neg, t) := split_sign s in
  if String.eqb t EmptyString then None
  else match digits_value t 0 with
       | Some n => Some (if neg then - n else n)
       | None => None
       end.

Definition int_of_str (s : string) : result Z :=
  match int_literal (strip s) with
  | Some n => Ok n
  | None => Raise ("invalid literal for int() with base 10: '" ++ s ++ "'")
  end.

(** [digits[.digits]], at least one digit in all. *)
Definition decimal_literal (s : string) : option Q :=
  match str_split "." s with
  | [a] =>
      if String.eqb a EmptyString then None
      else match digits_value a 0 with
           | Some n => Some (inject_Z n)
           | None => None
           end
  | [a; b] =>
      if String.eqb (a ++ b) EmptyString then None
      else match digits_value (a ++ b) 0 with
           | Some n =>
               Some (inject_Z n / inject_Z (10 ^ Z.of_nat (String.length b)))%Q
           | None => None
           end
  | _ => None
  end.

Definition float_literal (s : string) : option Q :=
  let (neg, t) := split_sign s in
  match decimal_literal t with
  | Some q => Some (if neg then (- q)%Q else q)
  | None => None
  end.

Definition float_of_str (s : string) : result Q :=
  match float_literal (strip s) with
  | Some q => Ok q
  | None => Raise ("could not convert string to float: '" ++ s ++ "'")
  end.

(** The nearest integer, ties to the even one. *)
Definition round_half_even (q : Q) : Z :=
  let n := Qnum q in
  let d := Zpos (Qden q) in
  let fl := (n / d)%Z in
  let r2 := (2 * (n - fl * d))%Z in
  if (r2 <? d)%Z then fl
  else if (d <? r2)%Z then fl + 1
  else if Z.even fl then fl else fl + 1.

Fixpoint zeros (n : nat) : string :=
  match n with
  | O => EmptyString
  | S n' => String "0" (zeros n')
  end.

Definition format_fixed (digits : nat) (q : Q) : string :=
  let scale := (10 ^ Z.of_nat digits)%Z in
  let n := Z.abs (round_half_even (q * inject_Z scale)%Q) in
  let frac := str_int (n mod scale) in
  (if Qle_bool 0 q then EmptyString else "-")
  ++ str_int (n / scale)
  ++ match digits with
     | O => EmptyString
     | _ => "." ++ zeros (digits - String.length frac) ++ frac
     end.

(** The shortest plain decimal with at least one fractional digit, up
    to sixteen of them. *)
Fixpoint shortest_fixed (fuel digits : nat) (q : Q) : string :=
  match fuel with
  | O => format_fixed digits q
  | S fuel' =>
      let scaled := Qred (q * inject_Z (10 ^ Z.of_nat digits))%Q in
      if Pos.eqb (Qden scaled) 1 then format_fixed digits q
      else shortest_fixed fuel' (S digits) q
  end.

Definition str_of_float (q : Q) : string := shortest_fixed 15 1 q.

(** Commas between groups of three digits, from the right. *)
Fixpoint group_from_right (rev_digits : list ascii) (k : nat) : list ascii :=
  match rev_digits with
  | [] => []
  | c :: rest =>
      match k, rest with
      | 2%nat, _ :: _ => c :: "," % char :: group_from_right rest 0
      | _, _ => c :: group_from_right rest (S k)
      end
  end.

Definition group_thousands (digits : string) : string :=
  string_of_list_ascii
    (rev (group_from_right (rev (list_ascii_of_string digits)) 0)).

Definition comma_int (n : Z) : string :=
  (if (n <? 0)%Z then "-" else EmptyString)
  ++ group_thousands (str_int (Z.abs n)).

Definition comma_format (v : pyval) : result string :=
  match v with
  | PInt n => Ok (comma_int n)
  | PFloat x =>
      match str_split "." (str_of_float (Qabs x)) with
      | [a; b] => Ok ((if Qle_bool 0 x then EmptyString else "-")
                      ++ group_thousands a ++ "." ++ b)
      | _ => Ok (str_of_float x)
      end
  | PStr _ => Raise "Cannot specify ',' with 's'."
  | PNone => Raise "unsupported format string passed to NoneType.__format__"
  end.

(** Components of a path: no empty ones, no [.]. *)
Definition components (p : string) : list string :=
  filter (fun c => negb (String.eqb c EmptyString || String.eqb c "."))
         (str_split "/" p).

Definition name_of (p : string) : string := last (components p) EmptyString.

(** The index after the last occurrence of [c], if any. *)
Fixpoint after_last (c : ascii) (s : string) : option nat :=
  match s with
  | EmptyString => None
  | String a s' =>
      match after_last c s' with
      | Some i => Some (S i)
      | None => if Ascii.eqb a c then Some 1%nat else None
      end
  end.

Definition stem_of_name (n : string) : string :=
  match after_last "." n with
  | Some i =>
      if Nat.ltb 1 i && Nat.ltb i (String.length n)
      then String.substring 0 (i - 1) n
      else n
  | None => n
  end.

Definition stem_of (p : string) : string := stem_of_name (name_of p).

Fixpoint rstrip_slash (s : string) : string :=
  match s with
  | EmptyString => EmptyString
  | String c s' =>
      match rstrip_slash s' with
      | EmptyString => if Ascii.eqb c "/" then EmptyString
                       else String c EmptyString
      | t => String c t
      end
  end.

Definition dirname (p : string) : string :=
  match after_last "/" p with
  | Some i =>
      let head := String.substring 0 i p in
      match rstrip_slash head with
      | EmptyString => head
      | h => h
      end
  | None => EmptyString
  end.

Definition path_join (a b : string) : string :=
  if startswith b "/" then b
  else if String.eqb a EmptyString || endswith a "/" then a ++ b
  else a ++ "/" ++ b.

Definition with_suffix_mp4 (p : string) : result string :=
  let n := name_of p in
  if String.eqb n EmptyString
  then Raise ("PosixPath('" ++ p ++ "') has an empty name")
  else
    let q := rstrip_slash p in
    Ok (String.substring 0 (String.length q - String.length n) q
        ++ stem_of_name n ++ ".mp4").

Definition b64_alphabet : string :=
  "ABCDEFGHIJKLMNOPQRSTUVWXYZabcdefghijklmnopqrstuvwxyz0123456789+/".

Definition b64_char (n : N) : ascii :=
  match String.get (N.to_nat n) b64_alphabet with
  | Some c => c
  | None => "="%char
  end.

Fixpoint b64_groups (fuel : nat) (bytes : list N) : string :=
  match fuel with
  | O => EmptyString
  | S fuel' =>
      match bytes with
      | [] => EmptyString
      | [a] =>
          String (b64_char (a / 4)) (String (b64_char ((a mod 4) * 16)) "==")
      | [a; b] =>
          String (b64_char (a / 4))
            (String (b64_char ((a mod 4) * 16 + b / 16))
               (String (b64_char ((b mod 16) * 4)) "="))
      | a :: b :: c :: rest =>
          String (b64_char (a / 4))
            (String (b64_char ((a mod 4) * 16 + b / 16))
               (String (b64_char ((b mod 16) * 4 + c / 64))
                  (String (b64_char (c mod 64)) (b64_groups fuel' rest))))
      end
  end.

Definition base64 (s : string) : string :=
  let bytes := map N_of_ascii (list_ascii_of_string s) in
  b64_groups (S (List.length bytes)) bytes.

Definition cpython : PyLib := {|
  py_float := float_of_str;
  py_int := int_of_str;
  str_strip := strip;
  float_str := str_of_float;
  format_2f := format_fixed 2;
  format_1f := format_fixed 1;
  format_comma := comma_format;
  os_path_dirname := dirname;
  os_path_join := path_join;
  Path_name := name_of;
  Path_stem := stem_of;
  Path_with_suffix_mp4 := with_suffix_mp4;
  b64encode := base64
|}.

(* ------------------------------------------------------------------ *)
(** ** Worlds to run the model in

    A [Fixture] fixes the files on the disk and what the external programs
    answer about them; an [ffmpeg] run that exits with 0 leaves its last
    argument on the disk. *)

Record Fixture := {
  fx_api_key : option string;
  fx_files : list string;
  fx_duration_probe : CompletedProcess;
  fx_size_probe : CompletedProcess;
  fx_codec_probe : CompletedProcess;
  fx_audio_returncode : Z;
  fx_transcription : result string;
  fx_listing : list string;
  fx_remote : result pydict
}.

Definition mem (x : string) (l : list string) : bool :=
  existsb (String.eqb x) l.

Definition completed (rc : Z) (out : string) : CompletedProcess :=
  {| returncode := rc; stdout := out |}.

(** [ffprobe ... input] and [ffmpeg -y -i input ...]: both exit with 1 on
    an input that is not on the disk. *)
Definition fixture_run (f : Fixture) (cmd : list string) : CompletedProcess :=
  if String.eqb (hd EmptyString cmd) "ffprobe" then
    if negb (mem (last cmd EmptyString) (fx_files f))
    then completed 1 EmptyString
    else if mem "format=duration" cmd then fx_duration_probe f
    else if mem "stream=width,height" cmd then fx_size_probe f
    else fx_codec_probe f
  else
    if negb (mem (nth 3 cmd EmptyString) (fx_files f))
    then completed 1 EmptyString
    else if mem "-vn" cmd then completed (fx_audio_returncode f) EmptyString
    else completed 0 EmptyString.

Definition written_by (f : Fixture) (p : string) (e : event) : bool :=
  match e with
  | Run cmd =>
      String.eqb (hd EmptyString cmd) "ffmpeg"
      && String.eqb (last cmd EmptyString) p
      && (returncode (fixture_run f cmd) =? 0)%Z
  | _ => false
  end.

Definition world_of (f : Fixture) : World := {|
  environ_GROQ_API_KEY := fx_api_key f;
  expanduser_home := "/home/user";
  os_path_exists := fun h p => mem p (fx_files f) || existsb (written_by f p) h;
  os_makedirs := fun _ _ => Ok tt;
  subprocess_run := fun _ cmd => Ok (fixture_run f cmd);
  os_listdir := fun _ _ => Ok (fx_listing f);
  read_bytes := fun _ _ => Ok "JFIF";
  AsyncGroq := fun _ => Ok tt;
  chat_completions_create := fun _ _ _ _ => Ok (Some "A cat crosses a street.");
  audio_transcriptions_create := fun _ _ _ => fx_transcription f;
  import_yt_dlp := fun _ => Ok tt;
  ydl_extract_info := fun _ _ _ => fx_remote f;
  ydl_download := fun _ _ _ => Ok tt;
  ydl_prepare_filename :=
    fun _ _ _ => Ok "/home/user/video-downloads/Clip.webm"
|}.

(** A ten second 1280x720 h264 clip at [/videos/clip.mp4]. *)
Definition clip : Fixture := {|
  fx_api_key := None;
  fx_files := ["/videos/clip.mp4"];
  fx_duration_probe := completed 0 ("10.000000" ++ nl);
  fx_size_probe := completed 0 ("1280x720" ++ nl);
  fx_codec_probe := completed 0 ("h264" ++ nl);
  fx_audio_returncode := 0;
  fx_transcription := Ok "hello";
  fx_listing := ["clip_segment_001.mp4"; "clip.mp4"; "clip_segment_000.mp4"];
  fx_remote := Ok [("title", PStr "Clip"); ("duration", PInt 19);
                   ("like_count", PNone)]
|}.

Definition with_key (f : Fixture) (k : option string) : Fixture := {|
  fx_api_key := k;
  fx_files := fx_files f;
  fx_duration_probe := fx_duration_probe f;
  fx_size_probe := fx_size_probe f;
  fx_codec_probe := fx_codec_probe f;
  fx_audio_returncode := fx_audio_returncode f;
  fx_transcription := fx_transcription f;
  fx_listing := fx_listing f;
  fx_remote := fx_remote f
|}.

Definition with_duration_probe (f : Fixture) (p : CompletedProcess)
    : Fixture := {|
  fx_api_key := fx_api_key f;
  fx_files := fx_files f;
  fx_duration_probe := p;
  fx_size_probe := fx_size_probe f;
  fx_codec_probe := fx_codec_probe f;
  fx_audio_returncode := fx_audio_returncode f;
  fx_transcription := fx_transcription f;
  fx_listing := fx_listing f;
  fx_remote := fx_remote f
|}.

Definition with_audio (f : Fixture) (rc : Z) (t : result string) : Fixture := {|
  fx_api_key := fx_api_key f;
  fx_files := fx_files f;
  fx_duration_probe := fx_duration_probe f;
  fx_size_probe := fx_size_probe f;
  fx_codec_probe := fx_codec_probe f;
  fx_audio_returncode := rc;
  fx_transcription := t;
  fx_listing := fx_listing f;
  fx_remote := fx_remote f
|}.

(** The process at start: no analyzer, nothing requested yet. *)
Definition fresh : state := {| ai_analyzer := None; trace := [] |}.

Definition no_arguments : Arguments := {|
  arg_video_path := None; arg_num_frames := None;
  arg_segment_duration := None; arg_output_dir := None;
  arg_output_path := None; arg_url := None; arg_quality := None;
  arg_prompt := None
|}.

Definition video_arguments (video_path : string) (num_frames : option Z)
    (segment_duration : option Z) : Arguments := {|
  arg_video_path := Some video_path; arg_num_frames := num_frames;
  arg_segment_duration := segment_duration; arg_output_dir := None;
  arg_output_path := None; arg_url := None; arg_quality := None;
  arg_prompt := None
|}.

(** The text of a response. *)
Definition response_text (r : result (list TextContent) * state)
    : result (list string) :=
  match fst r with
  | Ok l => Ok (map text l)
  | Raise e => Raise e
  end.

(* ------------------------------------------------------------------ *)
(** ** Vocabulary of the properties *)

(** The order [sorted] sorts by. *)
Definition lex_le (a b : string) : Prop := String.leb a b = true.

(** What a computation adds to the trace. *)
Definition extends_by (s s' : state) (evs : list event) : Prop :=
  trace s' = (trace s ++ evs)%list /\ ai_analyzer s' = ai_analyzer s.

(** A computation only ever adds requests to the trace ... *)
Definition appends {A} (c : M A) : Prop :=
  forall s, exists evs, trace (snd (c s)) = (trace s ++ evs)%list.

(** ... and a backend operation adds at least one. *)
Definition leaves_trace {A} (c : M A) : Prop :=
  forall s, exists e evs, trace (snd (c s)) = (trace s ++ e :: evs)%list.

(** A run of [ffprobe]. *)
Definition is_probe (e : event) : Prop :=
  exists args, e = Run ("ffprobe" :: args).

(** The state once [os.makedirs(dir)] has been requested. *)
Definition after_makedirs (s : state) (dir : string) : state :=
  {| ai_analyzer := ai_analyzer s; trace := (trace s ++ [Makedirs dir])%list |}.

(** What the probes report for the ten second clip. *)
Definition clip_metadata : VideoMetadata := {|
  duration := 10.000000%Q; width := 1280; height := 720; codec := "h264";
  path := "/videos/clip.mp4"; filename := "clip.mp4"
|}.

(** The clip with a credential and an audio extraction that exits with 1. *)
Definition silent_clip : Fixture :=
  with_audio (with_key clip (Some "gsk_test")) 1 (Ok "hello").

(** The clip with a credential and a transcription request that fails. *)
Definition rate_limited_clip : Fixture :=
  with_audio (with_key clip (Some "gsk_test")) 0 (Raise "rate limit").

(** [needle in hay] *)
Fixpoint str_infix (needle hay : string) : bool :=
  String.prefix needle hay
  || match hay with
     | EmptyString => false
     | String _ hay' => str_infix needle hay'
     end.

(** Whether an AI tool finds an analyzer: one is there, or the
    environment's credential builds one. *)
Definition analyzer_available (w : World) (s : state) : bool :=
  match ai_analyzer s with
  | Some _ => true
  | None =>
      match environ_GROQ_API_KEY w with
      | Some k =>
          negb (String.eqb k EmptyString)
          && match AsyncGroq w k with
             | Ok _ => true
             | Raise _ => false
             end
      | None => false
      end
  end.

(** The argument bag with another [num_frames], another [quality]. *)
Definition set_num_frames (a : Arguments) (v : option Z) : Arguments := {|
  arg_video_path := arg_video_path a;
  arg_num_frames := v;
  arg_segment_duration := arg_segment_duration a;
  arg_output_dir := arg_output_dir a;
  arg_output_path := arg_output_path a;
  arg_url := arg_url a;
  arg_quality := arg_quality a;
  arg_prompt := arg_prompt a
|}.

Definition set_quality (a : Arguments) (v : option string) : Arguments := {|
  arg_video_path := arg_video_path a;
  arg_num_frames := arg_num_frames a;
  arg_segment_duration := arg_segment_duration a;
  arg_output_dir := arg_output_dir a;
  arg_output_path := arg_output_path a;
  arg_url := arg_url a;
  arg_quality := v;
  arg_prompt := arg_prompt a
|}.

(** [l1] is [l2] with some elements dropped, the order kept. *)
Inductive subseq {A : Type} : list A -> list A -> Prop :=
| subseq_nil : subseq [] []
| subseq_drop (x : A) (l1 l2 : list A) : subseq l1 l2 -> subseq l1 (x :: l2)
| subseq_keep (x : A) (l1 l2 : list A) :
    subseq l1 l2 -> subseq (x :: l1) (x :: l2).

(** A computation leaves the global [ai_analyzer] as it found it. *)
Definition keeps_analyzer {A} (c : M A) : Prop :=
  forall s, ai_analyzer (snd (c s)) = ai_analyzer s.

(** The argument bag with another [segment_duration], [prompt], [url]. *)
Definition set_segment_duration (a : Arguments) (v : option Z) : Arguments := {|
  arg_video_path := arg_video_path a;
  arg_num_frames := arg_num_frames a;
  arg_segment_duration := v;
  arg_output_dir := arg_output_dir a;
  arg_output_path := arg_output_path a;
  arg_url := arg_url a;
  arg_quality := arg_quality a;
  arg_prompt := arg_prompt a
|}.

Definition set_prompt (a : Arguments) (v : option string) : Arguments := {|
  arg_video_path := arg_video_path a;
  arg_num_frames := arg_num_frames a;
  arg_segment_duration := arg_segment_duration a;
  arg_output_dir := arg_output_dir a;
  arg_output_path := arg_output_path a;
  arg_url := arg_url a;
  arg_quality := arg_quality a;
  arg_prompt := v
|}.

(** The file precheck of [call_tool] lets the argument bag through. *)
Definition file_precheck_passes (w : World) (arguments : Arguments)
    (s : state) : Prop :=
  forall p, arg_video_path arguments = Some p ->
            p = EmptyString \/ os_path_exists w (trace s) p = true.

(** What the loop over [os.listdir] in [download_video] accepts. *)
Definition is_download_of (base_name f : string) : bool :=
  startswith f base_name && negb (endswith f ".part").

(** The file name [extract_frames] gives to frame [i]. *)
Definition frame_filename (stem : string) (i : Z) : string :=
  stem ++ "_frame_" ++ format_03d i ++ ".jpg".

(** The global [ai_analyzer] after a call of tool [name]. *)
Definition analyzer_after (w : World) (name : string) (s : state)
    : option AIAnalyzer :=
  match ai_analyzer s with
  | Some a => Some a
  | None =>
      if is_ai_tool name then
        match environ_GROQ_API_KEY w with
        | Some k =>
            if String.eqb k EmptyString then None
            else match AsyncGroq w k with
                 | Ok _ => Some {| client_api_key := k |}
                 | Raise _ => None
                 end
        | None => None
        end
      else None
  end.

(** The clip in a world without [ffprobe]: every run raises. *)
Definition no_ffmpeg (w : World) : World := {|
  environ_GROQ_API_KEY := environ_GROQ_API_KEY w;
  expanduser_home := expanduser_home w;
  os_path_exists := os_path_exists w;
  os_makedirs := os_makedirs w;
  subprocess_run :=
    fun _ cmd =>
      Raise ("[Errno 2] No such file or directory: '"
             ++ hd EmptyString cmd ++ "'");
  os_listdir := os_listdir w;
  read_bytes := read_bytes w;
  AsyncGroq := AsyncGroq w;
  chat_completions_create := chat_completions_create w;
  audio_transcriptions_create := audio_transcriptions_create w;
  import_yt_dlp := import_yt_dlp w;
  ydl_extract_info := ydl_extract_info w;
  ydl_download := ydl_download w;
  ydl_prepare_filename := ydl_prepare_filename w
|}.

(** A world without the [yt_dlp] module. *)
Definition no_yt_dlp (w : World) : World := {|
  environ_GROQ_API_KEY := environ_GROQ_API_KEY w;
  expanduser_home := expanduser_home w;
  os_path_exists := os_path_exists w;
  os_makedirs := os_makedirs w;
  subprocess_run := subprocess_run w;
  os_listdir := os_listdir w;
  read_bytes := read_bytes w;
  AsyncGroq := AsyncGroq w;
  chat_completions_create := chat_completions_create w;
  audio_transcriptions_create := audio_transcriptions_create w;
  import_yt_dlp := fun _ => Raise "No module named 'yt_dlp'";
  ydl_extract_info := ydl_extract_info w;
  ydl_download := ydl_download w;
  ydl_prepare_filename := ydl_prepare_filename w
|}.

(** An argument bag with a [url] only. *)
Definition url_arguments (url : string) : Arguments := {|
  arg_video_path := None; arg_num_frames := None;
  arg_segment_duration := None; arg_output_dir := None;
  arg_output_path := None; arg_url := Some url; arg_quality := None;
  arg_prompt := None
|}.

(** The file [extract_audio] writes to. *)
Definition audio_output_path (py : PyLib) (video_path : string)
    (output_path : option string) : string :=
  match output_path with
  | None => os_path_join py (dirname_or_dot py video_path)
              (Path_stem py video_path ++ "_audio.mp3")
  | Some p => p
  end.

(** The index and extension of the frame file names of [0..n-1]. *)
Definition frame_suffixes (n : nat) : list string :=
  map (fun a => format_03d (Z.of_nat a) ++ ".jpg") (seq 0 n).

(** Each string sorts strictly before the next one. *)
Fixpoint ascending (l : list string) : bool :=
  match l with
  | a :: (b :: _) as l' =>
      match String.compare a b with
      | Lt => ascending l'
      | _ => false
      end
  | _ => true
  end.



(** A parameter of a schema keeps its own constraints: an integer
    default within its bounds, a string default among the enumerated
    values. *)
Definition param_consistent (p : ParamSchema) : Prop :=
  match p with
  | IntegerParam d lo hi => (lo <= d <= hi)%Z
  | StringParam (Some d) (Some e) => In d e
  | StringParam _ _ => True
  end.

(** A live stream on the site: the duration is there, and [None]. *)
Definition live_stream : Fixture := {|
  fx_api_key := None;
  fx_files := ["/home/user/video-downloads/Clip.mp4"];
  fx_duration_probe := fx_duration_probe clip;
  fx_size_probe := fx_size_probe clip;
  fx_codec_probe := fx_codec_probe clip;
  fx_audio_returncode := 0;
  fx_transcription := Ok "hello";
  fx_listing := ["Clip.mp4"];
  fx_remote := Ok [("title", PStr "Clip"); ("duration", PNone);
                   ("view_count", PInt 1200)]
|}.

(* ------------------------------------------------------------------ *)
(** * Properties *)

(** ** The order of [sorted] *)
Lemma ascii_compare_lt_trans (x y z : ascii) :
  Ascii.compare x y = Lt -> Ascii.compare y z = Lt -> Ascii.compare x z = Lt.
Proof.
  unfold Ascii.compare. rewrite !N.compare_lt_iff. apply N.lt_trans.
Qed.

Lemma compare_not_gt_trans (a b c : string) :
  String.compare a b <> Gt -> String.compare b c <> Gt ->
  String.compare a c <> Gt.
Proof.
  revert b c. induction a as [|x a IH]; intros [|y b] [|z c]; simpl;
    try congruence.
  destruct (Ascii.compare x y) eqn:Hxy; try congruence;
    destruct (Ascii.compare y z) eqn:Hyz; try congruence; intros Hab Hbc.
  - apply Ascii.compare_eq_iff in Hxy, Hyz. subst.
    replace (Ascii.compare z z) with Eq.
    + now apply IH with b.
    + symmetry. unfold Ascii.compare. apply N.compare_refl.
  - apply Ascii.compare_eq_iff in Hxy. subst. now rewrite Hyz.
  - apply Ascii.compare_eq_iff in Hyz. subst. now rewrite Hxy.
  - now rewrite (ascii_compare_lt_trans _ _ _ Hxy Hyz).
Qed.

Lemma lex_le_iff (a b : string) : lex_le a b <-> String.compare a b <> Gt.
Proof.
  unfold lex_le, String.leb. destruct (String.compare a b); split; congruence.
Qed.

Lemma lex_le_trans (a b c : string) : lex_le a b -> lex_le b c -> lex_le a c.
Proof. rewrite !lex_le_iff. apply compare_not_gt_trans. Qed.

Lemma lex_le_total (a b : string) : lex_le a b \/ lex_le b a.
Proof. apply String.leb_total. Qed.

Lemma insert_sorted_perm (x : string) (l : list string) :
  Permutation (x :: l) (insert_sorted x l).
Proof.
  induction l as [|y l IH]; simpl; [reflexivity|].
  destruct (String.leb x y); [reflexivity|].
  rewrite perm_swap. now apply perm_skip.
Qed.


Lemma insert_sorted_forall (P : string -> Prop) (x : string) (l : list string) :
  P x -> Forall P l -> Forall P (insert_sorted x l).
Proof.
  intros Hx Hl. apply Forall_forall. intros y Hy.
  apply (Permutation_in _ (Permutation_sym (insert_sorted_perm x l))) in Hy.
  destruct Hy as [<-|Hy]; [assumption|].
  now apply (proj1 (Forall_forall P l) Hl).
Qed.

Lemma insert_sorted_sorted (x : string) (l : list string) :
  StronglySorted lex_le l -> StronglySorted lex_le (insert_sorted x l).
Proof.
  induction 1 as [|y l Hl IH Hy]; simpl.
  - repeat constructor.
  - destruct (String.leb x y) eqn:Hxy.
    + constructor; [now constructor|].
      constructor; [exact Hxy|].
      eapply Forall_impl; [|exact Hy].
      intros z Hz. now apply lex_le_trans with y.
    + constructor; [exact IH|].
      apply insert_sorted_forall; [|exact Hy].
      destruct (lex_le_total x y) as [H|H]; [|exact H].
      unfold lex_le in H. congruence.
Qed.

Lemma sorted_sorted (l : list string) : StronglySorted lex_le (sorted l).
Proof.
  induction l as [|x l IH]; simpl; [constructor|].
  now apply insert_sorted_sorted.
Qed.

(** ** Running the monad *)

Lemma run_bind {A B} (c : M A) (k : A -> M B) (s s' : state) (a : A) :
  c s = (Ok a, s') -> bind c k s = k a s'.
Proof. unfold bind. now intros ->. Qed.

Lemma run_bind_raise {A B} (c : M A) (k : A -> M B) (s s' : state) e :
  c s = (Raise e, s') -> bind c k s = (Raise e, s').
Proof. unfold bind. now intros ->. Qed.

Lemma run_eta {A} (c : M A) (s : state) (r : result A) :
  fst (c s) = r -> c s = (r, snd (c s)).
Proof. intros <-. apply surjective_pairing. Qed.



(** ** Backend operations leave a trace *)

Lemma appends_ret {A} (a : A) : appends (ret a).
Proof. intro s. exists []. simpl. now rewrite app_nil_r. Qed.

Lemma appends_raise {A} (e : string) : appends (@raise A e).
Proof. intro s. exists []. simpl. now rewrite app_nil_r. Qed.

Lemma appends_lift {A} (r : result A) : appends (lift r).
Proof. intro s. exists []. simpl. now rewrite app_nil_r. Qed.

Lemma appends_observe {A} (f : list event -> A) : appends (observe f).
Proof. intro s. exists []. simpl. now rewrite app_nil_r. Qed.

Lemma appends_get_ai_analyzer : appends get_ai_analyzer.
Proof. intro s. exists []. simpl. now rewrite app_nil_r. Qed.

Lemma appends_set_ai_analyzer (a : AIAnalyzer) : appends (set_ai_analyzer a).
Proof. intro s. exists []. simpl. now rewrite app_nil_r. Qed.

Lemma leaves_trace_perform {A} (e : event) (f : list event -> result A) :
  leaves_trace (perform e f).
Proof. intro s. now exists e, []. Qed.

Lemma leaves_trace_appends {A} (c : M A) : leaves_trace c -> appends c.
Proof. intros H s. destruct (H s) as (e & evs & E). now exists (e :: evs). Qed.

Lemma appends_bind {A B} (c : M A) (k : A -> M B) :
  appends c -> (forall a, appends (k a)) -> appends (bind c k).
Proof.
  intros Hc Hk s. unfold bind. destruct (Hc s) as [evs E].
  destruct (c s) as [[a|e] s1]; simpl in E.
  - destruct (Hk a s1) as [evs' E']. exists (evs ++ evs')%list.
    now rewrite E', E, app_assoc.
  - now exists evs.
Qed.

Lemma appends_try_except {A} (c : M A) (h : string -> M A) :
  appends c -> (forall e, appends (h e)) -> appends (try_except c h).
Proof.
  intros Hc Hh s. unfold try_except. destruct (Hc s) as [evs E].
  destruct (c s) as [[a|e] s1]; simpl in E.
  - now exists evs.
  - destruct (Hh e s1) as [evs' E']. exists (evs ++ evs')%list.
    now rewrite E', E, app_assoc.
Qed.

Lemma leaves_trace_bind {A B} (c : M A) (k : A -> M B) :
  leaves_trace c -> (forall a, appends (k a)) -> leaves_trace (bind c k).
Proof.
  intros Hc Hk s. unfold bind. destruct (Hc s) as (e0 & evs & E).
  destruct (c s) as [[a|e] s1]; simpl in E.
  - destruct (Hk a s1) as [evs' E']. exists e0, (evs ++ evs')%list.
    rewrite E', E, <- app_assoc. reflexivity.
  - now exists e0, evs.
Qed.

Lemma leaves_trace_try_except {A} (c : M A) (h : string -> M A) :
  leaves_trace c -> (forall e, appends (h e)) ->
  leaves_trace (try_except c h).
Proof.
  intros Hc Hh s. unfold try_except. destruct (Hc s) as (e0 & evs & E).
  destruct (c s) as [[a|e] s1]; simpl in E.
  - now exists e0, evs.
  - destruct (Hh e s1) as [evs' E']. exists e0, (evs ++ evs')%list.
    rewrite E', E, <- app_assoc. reflexivity.
Qed.

Lemma leaves_trace_bind_ret {A B} (a : A) (k : A -> M B) :
  leaves_trace (k a) -> leaves_trace (bind (ret a) k).
Proof. intros H s. exact (H s). Qed.

Lemma appends_for_each {A B} (body : B -> A -> M B) (l : list A) :
  (forall acc x, appends (body acc x)) ->
  forall acc, appends (for_each body l acc).
Proof.
  intros Hbody. induction l as [|x l IH]; intro acc; simpl.
  - apply appends_ret.
  - apply appends_bind; [apply Hbody | exact IH].
Qed.

Ltac appends_step :=
  first
    [ apply appends_ret | apply appends_raise | apply appends_lift
    | apply appends_observe | apply appends_get_ai_analyzer
    | apply appends_set_ai_analyzer
    | apply leaves_trace_appends; apply leaves_trace_perform
    | apply appends_for_each; intros ? ?
    | apply appends_try_except; [|intros ?]
    | apply appends_bind; [|intros ?]
    | match goal with
      | |- appends (if ?b then _ else _) => destruct b
      | |- appends (match ?x with _ => _ end) => destruct x
      | |- appends (let _ := _ in _) => cbv zeta
      end ].

Ltac appends := repeat appends_step.

Lemma appends_get_video_info (py : PyLib) (w : World) (video_path : string) :
  appends (get_video_info py w video_path).
Proof. unfold get_video_info, run, exists_. appends. Qed.

Lemma appends_extract_audio (py : PyLib) (w : World) (video_path : string)
    (output_path : option string) :
  appends (extract_audio py w video_path output_path).
Proof. unfold extract_audio, run, exists_. appends. Qed.

Lemma appends_extract_frames (py : PyLib) (w : World) (video_path : string)
    (num_frames : Z) (output_dir : option string) :
  appends (extract_frames py w video_path num_frames output_dir).
Proof.
  unfold extract_frames, makedirs, run, exists_.
  apply appends_bind; [appends|intros _].
  apply appends_bind; [apply appends_get_video_info|intros info].
  appends.
Qed.

Lemma appends_transcribe_audio (w : World) (audio_path : string) :
  appends (transcribe_audio w audio_path).
Proof. unfold transcribe_audio. appends. Qed.

(** Each operation of the three backends records at least one request,
    whatever the world answers: a trace that has not grown means that no
    backend was called. *)
Lemma appends_analyze_frames (py : PyLib) (w : World)
    (frame_paths : list string) (prompt model : string) :
  appends (analyze_frames py w frame_paths prompt model).
Proof. unfold analyze_frames. appends. Qed.

Lemma backends_leave_trace (py : PyLib) (w : World) :
  (forall p, leaves_trace (get_video_info py w p))
  /\ (forall p n d, leaves_trace (extract_frames py w p n d))
  /\ (forall p o, leaves_trace (extract_audio py w p o))
  /\ (forall p n d, leaves_trace (split_video py w p n d))
  /\ (forall u d q, leaves_trace (download_video py w u d q))
  /\ (forall u, leaves_trace (get_video_info_url w u))
  /\ (forall l p m, leaves_trace (analyze_frames py w l p m))
  /\ (forall p, leaves_trace (transcribe_audio w p))
  /\ (forall p q n a, leaves_trace (analyze_video py w p q n a)).
Proof.
  assert (Hframes : forall p n d, leaves_trace (extract_frames py w p n d)).
  { intros. unfold extract_frames, makedirs.
    apply leaves_trace_bind; [apply leaves_trace_perform|intros _].
    apply appends_bind; [apply appends_get_video_info|intro].
    unfold run, exists_. appends. }
  repeat split; intros.
  - unfold get_video_info, run. apply leaves_trace_try_except; [|appends].
    apply leaves_trace_bind; [apply leaves_trace_perform|]. intro.
    unfold exists_. appends.
  - apply Hframes.
  - unfold extract_audio, run.
    apply leaves_trace_bind; [apply leaves_trace_perform|intro].
    unfold exists_. appends.
  - unfold split_video, makedirs.
    apply leaves_trace_bind; [apply leaves_trace_perform|intros _].
    apply appends_bind; [apply appends_get_video_info|intro].
    unfold run, listdir. appends.
  - unfold download_video.
    apply leaves_trace_bind; [apply leaves_trace_perform|intros _].
    unfold makedirs, listdir, exists_. appends.
  - unfold get_video_info_url.
    apply leaves_trace_bind; [apply leaves_trace_perform|intros _]. appends.
  - unfold analyze_frames. destruct l as [|f l]; cbn [for_each].
    + apply leaves_trace_bind_ret.
      apply leaves_trace_bind; [apply leaves_trace_perform|intro]. appends.
    + apply leaves_trace_bind; [|intro; appends].
      apply leaves_trace_bind; [|intro; appends].
      apply leaves_trace_bind; [apply leaves_trace_perform|intro]. appends.
  - unfold transcribe_audio.
    apply leaves_trace_bind; [apply leaves_trace_perform|intro]. appends.
  - unfold analyze_video.
    apply leaves_trace_bind; [apply Hframes|intro].
    destruct a0; [appends|].
    apply appends_bind; [apply appends_analyze_frames|intro].
    destruct a.
    + apply appends_bind; [apply appends_extract_audio|intro].
      unfold transcribe_audio. appends.
    + appends.
Qed.

(** [get_video_info] always returns, and only probes. *)
Lemma get_video_info_returns (py : PyLib) (w : World) (video_path : string)
    (s : state) :
  exists info s' evs,
    get_video_info py w video_path s = (Ok info, s')
    /\ extends_by s s' evs /\ Forall is_probe evs.
Proof.
  unfold get_video_info, try_except, bind, run, perform, lift, ret,
    duration_cmd, size_cmd, codec_cmd; simpl.
  assert (P1 : forall a, is_probe (Run ("ffprobe" :: a))) by (intro; now eexists).
  destruct (subprocess_run w (trace s) _) as [d|e]; simpl;
    [|eexists _, _, [_]; repeat split; repeat constructor; apply P1].
  destruct (returncode d =? 0)%Z; simpl;
    [destruct (py_float py _); simpl;
       [|eexists _, _, [_]; repeat split; repeat constructor; apply P1]|].
  all: match goal with
       | |- context [subprocess_run ?w' ?h ?c] =>
           destruct (subprocess_run w' h c) as [sz|e]; simpl;
             [|eexists _, _, [_; _]; repeat split; simpl;
               [now rewrite <- app_assoc | repeat constructor; apply P1]]
       end.
  all: destruct ((returncode sz =? 0)%Z && str_contains "x" (stdout sz));
    simpl;
    [destruct (unpack_two_ints py _) as [[wd ht]|e]; simpl;
       [|eexists _, _, [_; _]; repeat split; simpl;
         [now rewrite <- app_assoc | repeat constructor; apply P1]]|].
  all: match goal with
       | |- context [subprocess_run ?w' ?h ?c] =>
           destruct (subprocess_run w' h c) as [c0|e]; simpl
       end.
  all: eexists _, _, [_; _; _]; repeat split; simpl;
    [now rewrite <- !app_assoc | repeat constructor; apply P1].
Qed.

(** ** split_video *)

(** C8. When the metadata probe reports an error or a duration of 0,
    [split_video] returns the empty list and has requested nothing but the
    directory and the [ffprobe] probes: the segmenting [ffmpeg] command is
    not run.  Whatever list of segment paths [split_video] returns is
    sorted in the lexicographic order of strings. *)
Theorem split_video_needs_duration_and_sorts
    (py : PyLib) (w : World) (video_path : string) (segment_duration : Z)
    (output_dir : option string) (s : state) :
  let dir := default_output_dir py video_path output_dir in
  (os_makedirs w (trace s) dir = Ok tt ->
   forall info s1,
     get_video_info py w video_path (after_makedirs s dir) = (Ok info, s1) ->
     match info with
     | InfoError _ _ => True
     | Info m => (duration m == 0)%Q
     end ->
     split_video py w video_path segment_duration output_dir s = (Ok [], s1)
     /\ exists probes,
          extends_by s s1 (Makedirs dir :: probes) /\ Forall is_probe probes)
  /\ (forall segments s',
        split_video py w video_path segment_duration output_dir s
        = (Ok segments, s') ->
        StronglySorted lex_le segments).
Proof.
  intro dir. split.
  - intros Hmk info s1 Hinfo Hdur.
    assert (Hsplit : split_video py w video_path segment_duration output_dir s
                     = (Ok [], s1)).
    { unfold split_video. fold dir.
      rewrite (run_bind _ _ s (after_makedirs s dir) tt).
      2:{ unfold makedirs, perform, after_makedirs. now rewrite Hmk. }
      rewrite (run_bind _ _ _ _ _ Hinfo).
      destruct info as [m|e p]; [|reflexivity].
      replace (Qle_bool (duration m) 0) with true; [reflexivity|].
      symmetry. apply Qle_bool_iff. rewrite Hdur. apply Qle_refl. }
    split; [exact Hsplit|].
    destruct (get_video_info_returns py w video_path (after_makedirs s dir))
      as (info' & s1' & probes & Heq & [Htr Hai] & Hprobes).
    rewrite Hinfo in Heq. injection Heq as _ <-.
    exists probes. split; [|exact Hprobes].
    split; [|exact Hai].
    rewrite Htr. unfold after_makedirs; simpl. now rewrite <- app_assoc.
  - intros segments s'. unfold split_video. fold dir.
    unfold bind at 1. destruct (makedirs w dir s) as [[[]|e] s0]; [|discriminate].
    unfold bind at 1.
    destruct (get_video_info py w video_path s0) as [[[m|e p]|e] s1];
      try discriminate.
    + destruct (Qle_bool (duration m) 0).
      * intros [= <- _]. constructor.
      * unfold bind at 1. destruct (run w _ s1) as [[r|e] s2]; [|discriminate].
        unfold bind at 1.
        destruct (listdir w dir s2) as [[files|e] s3]; [|discriminate].
        intros [= <- _]. apply sorted_sorted.
    + intros [= <- _]. constructor.
Qed.

(** On the ten second clip: with a duration probe that exits with 1
    nothing is split; with the probes of the fixture the two segments of
    the directory come back in order. *)
Lemma split_video_needs_duration_and_sorts_witness :
  let w := world_of (with_duration_probe clip (completed 1 EmptyString)) in
  os_makedirs w (trace fresh) "/videos" = Ok tt
  /\ (exists m s1,
        get_video_info cpython w "/videos/clip.mp4"
          (after_makedirs fresh "/videos") = (Ok (Info m), s1)
        /\ (duration m == 0)%Q)
  /\ fst (split_video cpython w "/videos/clip.mp4" 60 None fresh) = Ok []
  /\ fst (split_video cpython (world_of clip) "/videos/clip.mp4" 60 None fresh)
     = Ok ["/videos/clip_segment_000.mp4"; "/videos/clip_segment_001.mp4"]
  /\ StronglySorted lex_le
       ["/videos/clip_segment_000.mp4"; "/videos/clip_segment_001.mp4"].
Proof.
  intro w.
  destruct (get_video_info cpython w "/videos/clip.mp4"
              (after_makedirs fresh "/videos")) as [r s1] eqn:E.
  assert (Hr : r = Ok (Info {| duration := 0; width := 1280; height := 720;
                               codec := "h264"; path := "/videos/clip.mp4";
                               filename := "clip.mp4" |})).
  { change r with (fst (r, s1)). rewrite <- E. vm_compute. reflexivity. }
  subst r.
  split; [reflexivity|]. split; [eexists _, _; split; [reflexivity|reflexivity]|].
  pose proof (split_video_needs_duration_and_sorts cpython w
                "/videos/clip.mp4" 60 None fresh) as [H _].
  destruct (H eq_refl _ _ E (Qeq_refl 0)) as [Hempty _].
  split; [now rewrite Hempty|].
  pose proof (split_video_needs_duration_and_sorts cpython (world_of clip)
                "/videos/clip.mp4" 60 None fresh) as [_ Hsorted].
  destruct (split_video cpython (world_of clip) "/videos/clip.mp4" 60 None
              fresh) as [r' s'] eqn:E'.
  assert (Hr' : r' = Ok ["/videos/clip_segment_000.mp4";
                         "/videos/clip_segment_001.mp4"]).
  { change r' with (fst (r', s')). rewrite <- E'. vm_compute. reflexivity. }
  subst r'. split; [reflexivity|]. exact (Hsorted _ _ eq_refl).
Defined.

(** ** extract_frames *)


Lemma in_py_range (a b i : Z) : In i (py_range a b) <-> (a <= i < b)%Z.
Proof.
  unfold py_range. rewrite in_map_iff. split.
  - intros (k & <- & Hk). apply in_seq in Hk. lia.
  - intros H. exists (Z.to_nat (i - a)). split; [lia|]. apply in_seq. lia.
Qed.




(** ** get_video_info *)

(** A duration probe that exits with 0 and prints [N/A] does not degrade
    to duration 0: the whole call reports a failure. *)
Lemma unparsable_duration_fails_the_call :
  let w := world_of (with_duration_probe clip (completed 0 "N/A")) in
  subprocess_run w [] (duration_cmd "/videos/clip.mp4")
  = Ok {| returncode := 0; stdout := "N/A" |}
  /\ fst (get_video_info cpython w "/videos/clip.mp4" fresh)
     = Ok (InfoError "could not convert string to float: 'N/A'"
             "/videos/clip.mp4").
Proof. split; vm_compute; reflexivity. Qed.

(** C5, amended. [get_video_info] never raises.  When the three probe
    processes run, a probe that exits with a non-zero code degrades its
    field to the default (duration 0, width and height 0, codec
    "unknown"), and so does a size probe whose output has no "x"; the
    call reports a failure only when [float] rejects the output of a
    duration probe that exited with 0, or when the conversion to two
    integers rejects the output of a size probe that exited with 0. *)
Theorem get_video_info_degrades_failed_probes
    (py : PyLib) (w : World) (video_path : string) (s : state) :
  (exists info s', get_video_info py w video_path s = (Ok info, s'))
  /\ forall d sz c,
       let h1 := (trace s ++ [Run (duration_cmd video_path)])%list in
       let h2 := (h1 ++ [Run (size_cmd video_path)])%list in
       subprocess_run w (trace s) (duration_cmd video_path) = Ok d ->
       subprocess_run w h1 (size_cmd video_path) = Ok sz ->
       subprocess_run w h2 (codec_cmd video_path) = Ok c ->
       match fst (get_video_info py w video_path s) with
       | Ok (Info m) =>
           (returncode d <> 0%Z -> duration m = 0%Q)
           /\ (returncode sz <> 0%Z \/ str_contains "x" (stdout sz) = false ->
               width m = 0%Z /\ height m = 0%Z)
           /\ (returncode c <> 0%Z -> codec m = "unknown")
       | Ok (InfoError e p) =>
           p = video_path
           /\ ((returncode d = 0%Z
                /\ py_float py (str_strip py (stdout d)) = Raise e)
               \/ (returncode sz = 0%Z
                   /\ str_contains "x" (stdout sz) = true
                   /\ unpack_two_ints py
                        (str_split "x" (str_strip py (stdout sz))) = Raise e))
       | Raise _ => False
       end.
Proof.
  split.
  - destruct (get_video_info_returns py w video_path s)
      as (info & s' & _ & H & _).
    now exists info, s'.
  - intros d sz c h1 h2. subst h1 h2. intros Hd Hsz Hc.
    assert (Hcodec : forall c', (if (returncode c' =? 0)%Z
                                 then str_strip py (stdout c') else "unknown")
                                = "unknown" \/ returncode c' = 0%Z).
    { intro c'. destruct (returncode c' =? 0)%Z eqn:Ec; [right|now left].
      now apply Z.eqb_eq. }
    unfold get_video_info, try_except, bind, run, perform, lift, ret.
    cbn [trace ai_analyzer]. rewrite Hd.
    destruct (returncode d =? 0)%Z eqn:Ed;
      [apply Z.eqb_eq in Ed
      |apply Z.eqb_neq in Ed].
    1: destruct (py_float py (str_strip py (stdout d))) as [x|e] eqn:Ef;
         [|cbn; auto].
    all: cbn beta iota; cbn [trace ai_analyzer]; rewrite Hsz.
    all: destruct (returncode sz =? 0)%Z eqn:Es;
           [apply Z.eqb_eq in Es|apply Z.eqb_neq in Es]; cbn [andb].
    all: try (destruct (str_contains "x" (stdout sz)) eqn:Ex).
    all: try (destruct (unpack_two_ints py _) as [[wd ht]|e] eqn:Eu;
                [|cbn; auto 6]).
    all: cbn beta iota; cbn [trace ai_analyzer]; rewrite Hc; cbn.
    all: destruct (Hcodec c) as [->|Hc0].
    all: repeat split; try congruence; try tauto.
    all: match goal with
         | H : _ \/ _ |- _ => destruct H; congruence
         end.
Qed.

(** The clip whose duration probe exits with 1: the call succeeds with
    duration 0 and the other fields as probed. *)
Lemma get_video_info_degrades_failed_probes_witness :
  let w := world_of (with_duration_probe clip (completed 1 EmptyString)) in
  subprocess_run w [] (duration_cmd "/videos/clip.mp4")
  = Ok (completed 1 EmptyString)
  /\ fst (get_video_info cpython w "/videos/clip.mp4" fresh)
     = Ok (Info {| duration := 0; width := 1280; height := 720;
                   codec := "h264"; path := "/videos/clip.mp4";
                   filename := "clip.mp4" |})
  /\ match fst (get_video_info cpython w "/videos/clip.mp4" fresh) with
     | Ok (Info m) => duration m = 0%Q
     | _ => False
     end.
Proof.
  intro w. split; [reflexivity|]. split; [vm_compute; reflexivity|].
  pose proof (proj2 (get_video_info_degrades_failed_probes cpython w
                       "/videos/clip.mp4" fresh)
                (completed 1 EmptyString)
                (completed 0 ("1280x720" ++ nl))
                (completed 0 ("h264" ++ nl))
                eq_refl eq_refl eq_refl) as H.
  destruct (fst (get_video_info cpython w "/videos/clip.mp4" fresh))
    as [[m|e p]|e].
  - apply (proj1 H). discriminate.
  - destruct H as [_ [[H _]|(_ & _ & H)]];
      [discriminate H | vm_compute in H; discriminate H].
  - exact H.
Defined.

(** ** AIAnalyzer.analyze_video *)

(** Frame extraction succeeds, audio extraction fails: the result has a
    visual analysis, and no [audio_error]. *)
Lemma failed_audio_extraction_sets_no_audio_error :
  let w := world_of silent_clip in
  fst (extract_frames cpython w "/videos/clip.mp4" 2 None fresh)
  = Ok ["/videos/clip_frame_001.jpg"; "/videos/clip_frame_002.jpg"]
  /\ fst (extract_audio cpython w "/videos/clip.mp4" None fresh)
     = Ok EmptyString
  /\ fst (analyze_video cpython w "/videos/clip.mp4" default_prompt 2 true
            fresh)
     = Ok (Analysis
             {| visual_analysis := "A cat crosses a street.";
                frames := ["/videos/clip_frame_001.jpg";
                           "/videos/clip_frame_002.jpg"];
                transcript := None;
                audio_error := None |}).
Proof. repeat split; vm_compute; reflexivity. Qed.

(** C6, amended. When frame extraction yields frames and the vision
    request returns, [analyze_video] with [include_audio=True] returns a
    result with [visual_analysis] and [frames] whatever [extract_audio]
    returns: if it returns no file, the result has neither [transcript]
    nor [audio_error]; if it returns a file and the transcription raises,
    [audio_error] is the message of the exception; if the transcription
    returns, [transcript] is its text. *)
Theorem analyze_video_audio_is_best_effort
    (py : PyLib) (w : World) (video_path prompt : string) (num_frames : Z)
    (s s1 s2 s3 : state) (extracted : list string)
    (visual audio_path : string) :
  extract_frames py w video_path num_frames None s = (Ok extracted, s1) ->
  extracted <> [] ->
  analyze_frames py w extracted prompt VISION_MODEL s1 = (Ok visual, s2) ->
  extract_audio py w video_path None s2 = (Ok audio_path, s3) ->
  exists r s4,
    analyze_video py w video_path prompt num_frames true s
    = (Ok (Analysis r), s4)
    /\ visual_analysis r = visual
    /\ frames r = extracted
    /\ (audio_path = EmptyString ->
        transcript r = None /\ audio_error r = None)
    /\ (audio_path <> EmptyString ->
        forall e s', transcribe_audio w audio_path s3 = (Raise e, s') ->
                     transcript r = None /\ audio_error r = Some e)
    /\ (audio_path <> EmptyString ->
        forall t s', transcribe_audio w audio_path s3 = (Ok t, s') ->
                     transcript r = Some t /\ audio_error r = None).
Proof.
  intros Hframes Hne Hvisual Haudio.
  unfold analyze_video.
  rewrite (run_bind _ _ _ _ _ Hframes).
  destruct extracted as [|f fs]; [congruence|].
  rewrite (run_bind _ _ _ _ _ Hvisual).
  rewrite (run_bind _ _ _ _ _ Haudio).
  destruct (String.eqb audio_path EmptyString) eqn:Ea.
  - apply String.eqb_eq in Ea. eexists _, _. split; [reflexivity|]. cbn.
    repeat split; congruence.
  - apply String.eqb_neq in Ea. unfold try_except, bind.
    destruct (transcribe_audio w audio_path s3) as [[t|e] s'] eqn:Et;
      eexists _, _; (split; [reflexivity|]); cbn;
      repeat split; try congruence;
      intros _ x s'' [= <- _]; split; reflexivity.
Qed.

(** The clip whose transcription request fails with "rate limit". *)
Lemma analyze_video_audio_is_best_effort_witness :
  let w := world_of rate_limited_clip in
  (exists s1, extract_frames cpython w "/videos/clip.mp4" 2 None fresh
   = (Ok ["/videos/clip_frame_001.jpg"; "/videos/clip_frame_002.jpg"], s1))
  /\ exists r s4,
       analyze_video cpython w "/videos/clip.mp4" default_prompt 2 true fresh
       = (Ok (Analysis r), s4)
       /\ visual_analysis r = "A cat crosses a street."
       /\ audio_error r = Some "rate limit".
Proof.
  intro w.
  set (s1 := snd (extract_frames cpython w "/videos/clip.mp4" 2 None fresh)).
  set (extracted := ["/videos/clip_frame_001.jpg";
                     "/videos/clip_frame_002.jpg"]).
  set (s2 := snd (analyze_frames cpython w extracted default_prompt
                    VISION_MODEL s1)).
  set (s3 := snd (extract_audio cpython w "/videos/clip.mp4" None s2)).
  assert (E1 : extract_frames cpython w "/videos/clip.mp4" 2 None fresh
               = (Ok extracted, s1)) by (apply run_eta; vm_compute; reflexivity).
  assert (E2 : analyze_frames cpython w extracted default_prompt VISION_MODEL
                 s1 = (Ok "A cat crosses a street.", s2))
    by (apply run_eta; vm_compute; reflexivity).
  assert (E3 : extract_audio cpython w "/videos/clip.mp4" None s2
               = (Ok "/videos/clip_audio.mp3", s3))
    by (apply run_eta; vm_compute; reflexivity).
  assert (Et : transcribe_audio w "/videos/clip_audio.mp3" s3
               = (Raise "rate limit",
                  snd (transcribe_audio w "/videos/clip_audio.mp3" s3)))
    by (apply run_eta; vm_compute; reflexivity).
  split; [now exists s1|].
  destruct (analyze_video_audio_is_best_effort cpython w "/videos/clip.mp4"
              default_prompt 2 fresh s1 s2 s3 _ _ _ E1 ltac:(discriminate)
              E2 E3)
    as (r & s4 & Hrun & Hv & _ & _ & Herr & _).
  exists r, s4. split; [exact Hrun|]. split; [exact Hv|].
  exact (proj2 (Herr ltac:(discriminate) _ _ Et)).
Defined.

(** ** call_tool: the two prechecks *)

(** C2. An AI tool called while no analyzer has been built and the
    environment holds no credential is answered with the fixed text that
    names [GROQ_API_KEY] and the four FFmpeg-only tools; the state, and
    with it the trace of backend requests, is left as it was. *)
Theorem ai_tool_without_credential
    (py : PyLib) (w : World) (name : string) (arguments : Arguments)
    (s : state) :
  is_ai_tool name = true ->
  ai_analyzer s = None ->
  check_api_key w = false ->
  call_tool py w name arguments s = (Ok (text_content missing_key_text), s)
  /\ forallb (fun n => str_infix n missing_key_text)
       ["GROQ_API_KEY"; "get_video_info"; "extract_video_frames";
        "extract_video_audio"; "split_video"] = true.
Proof.
  intros Hai Hnone Hkey. split; [|vm_compute; reflexivity].
  unfold call_tool, try_except, call_tool_body, bind at 1.
  rewrite Hai. unfold bind at 1, get_ai_analyzer. rewrite Hnone.
  unfold init_analyzer. unfold check_api_key in Hkey.
  destruct (environ_GROQ_API_KEY w) as [k|]; [|reflexivity].
  destruct (String.eqb k EmptyString); [reflexivity|discriminate].
Qed.

Lemma ai_tool_without_credential_witness :
  let w := world_of clip in
  is_ai_tool "summarize_video" = true
  /\ ai_analyzer fresh = None
  /\ check_api_key w = false
  /\ call_tool cpython w "summarize_video"
       (video_arguments "/videos/clip.mp4" None None) fresh
     = (Ok (text_content missing_key_text), fresh).
Proof.
  intro w. split; [reflexivity|]. split; [reflexivity|].
  split; [reflexivity|].
  exact (proj1 (ai_tool_without_credential cpython w "summarize_video"
                  (video_arguments "/videos/clip.mp4" None None) fresh
                  eq_refl eq_refl eq_refl)).
Defined.

Lemma ai_precheck_run (w : World) (name : string) (s : state) :
  exists s',
    (if is_ai_tool name
     then (a <- get_ai_analyzer ;;
           match a with
           | Some _ => ret true
           | None => init_analyzer w
           end)%monad
     else ret true) s
    = (Ok (negb (is_ai_tool name) || analyzer_available w s), s')
    /\ trace s' = trace s.
Proof.
  unfold analyzer_available.
  destruct (is_ai_tool name); [|now exists s].
  unfold bind, get_ai_analyzer. destruct (ai_analyzer s) as [a|] eqn:Ea;
    [now exists s|].
  unfold init_analyzer. destruct (environ_GROQ_API_KEY w) as [k|];
    [|now exists s].
  destruct (String.eqb k EmptyString); [now exists s|].
  unfold try_except, bind, lift, set_ai_analyzer, ret.
  destruct (AsyncGroq w k); eexists; split; reflexivity.
Qed.

(** A missing file hides behind the credential check of the AI tools,
    and an empty [video_path] is not checked at all. *)
Lemma missing_file_not_always_reported :
  let w := world_of clip in
  (declares "analyze_video" "video_path" = true
   /\ os_path_exists w [] "/videos/nope.mp4" = false
   /\ response_text
        (call_tool cpython w "analyze_video"
           (video_arguments "/videos/nope.mp4" None None) fresh)
      = Ok [missing_key_text]
   /\ missing_key_text <> "Error: Video file not found: /videos/nope.mp4")
  /\ (declares "get_video_info" "video_path" = true
      /\ os_path_exists w [] EmptyString = false
      /\ response_text
           (call_tool cpython w "get_video_info"
              (video_arguments EmptyString None None) fresh)
         <> Ok ["Error: Video file not found: "]
      /\ trace (snd (call_tool cpython w "get_video_info"
                       (video_arguments EmptyString None None) fresh))
         <> []).
Proof.
  repeat split; try (vm_compute; reflexivity); vm_compute; discriminate.
Qed.

(** C3, amended. A non-empty [video_path] that names no existing file is
    answered with exactly "Error: Video file not found: {video_path}" and
    without any backend request, whatever the tool; except that an AI
    tool for which no analyzer is available is answered with the text of
    the credential check, which comes first. *)
Theorem missing_file_is_reported
    (py : PyLib) (w : World) (name : string) (arguments : Arguments)
    (s : state) (video_path : string) :
  arg_video_path arguments = Some video_path ->
  video_path <> EmptyString ->
  os_path_exists w (trace s) video_path = false ->
  exists s',
    call_tool py w name arguments s
    = (Ok (text_content
             (if negb (is_ai_tool name) || analyzer_available w s
              then "Error: Video file not found: " ++ video_path
              else missing_key_text)), s')
    /\ trace s' = trace s.
Proof.
  intros Harg Hne Hmissing.
  destruct (ai_precheck_run w name s) as (s' & Hpre & Htr).
  exists s'. split; [|exact Htr].
  unfold call_tool, try_except, call_tool_body.
  rewrite (run_bind _ _ _ _ _ Hpre).
  destruct (negb (is_ai_tool name) || analyzer_available w s);
    [|reflexivity].
  cbn [negb]. rewrite Harg. cbn [get_or].
  apply String.eqb_neq in Hne. rewrite Hne.
  unfold bind, exists_, observe, ret. rewrite Htr, Hmissing. reflexivity.
Qed.

Lemma missing_file_is_reported_witness :
  let w := world_of (with_key clip (Some "gsk_test")) in
  let arguments := video_arguments "/videos/nope.mp4" None None in
  arg_video_path arguments = Some "/videos/nope.mp4"
  /\ os_path_exists w (trace fresh) "/videos/nope.mp4" = false
  /\ exists s',
       call_tool cpython w "transcribe_video" arguments fresh
       = (Ok (text_content "Error: Video file not found: /videos/nope.mp4"),
          s')
       /\ trace s' = [].
Proof.
  intros w arguments. split; [reflexivity|]. split; [reflexivity|].
  exact (missing_file_is_reported cpython w "transcribe_video" arguments fresh
           "/videos/nope.mp4" eq_refl ltac:(discriminate) eq_refl).
Defined.

(** ** call_tool: routing and the outer handler *)

Lemma find_tool_none (tools : list Tool) (name : string) :
  find_tool tools name = None -> ~ In name (map tool_name tools).
Proof.
  induction tools as [|t tools IH]; simpl; [tauto|].
  destruct (String.eqb_spec (tool_name t) name) as [E|E]; [discriminate|].
  intros H [H1|H1]; [congruence|now apply IH].
Qed.

Lemma find_tool_some (tools : list Tool) (name : string) (t : Tool) :
  find_tool tools name = Some t -> In t tools /\ tool_name t = name.
Proof.
  induction tools as [|t' tools IH]; simpl; [discriminate|].
  destruct (String.eqb_spec (tool_name t') name) as [E|E].
  - intros [= <-]. auto.
  - intros H. destruct (IH H). auto.
Qed.

Ltac not_this_tool H :=
  match goal with
  | |- context [String.eqb ?n ?lit] =>
      destruct (String.eqb_spec n lit) as [->|_];
      [exfalso; apply H; vm_compute; tauto|]
  end.

(** A name outside the catalog falls through the whole chain. *)
Lemma route_unknown (py : PyLib) (w : World) (name : string)
    (arguments : Arguments) (video_path : string) :
  find_tool list_tools name = None ->
  is_ai_tool name = false
  /\ route py w name arguments video_path = ret ("Unknown tool: " ++ name).
Proof.
  intros H. apply find_tool_none in H. split.
  - unfold is_ai_tool, existsb. repeat not_this_tool H. reflexivity.
  - unfold route. repeat not_this_tool H. reflexivity.
Qed.

Lemma file_precheck_run (w : World) (video_path : string) (s : state) :
  (if String.eqb video_path EmptyString then ret false
   else (present <- exists_ w video_path ;; ret (negb present))%monad) s
  = (Ok (negb (String.eqb video_path EmptyString)
         && negb (os_path_exists w (trace s) video_path)), s).
Proof. destruct (String.eqb video_path EmptyString); reflexivity. Qed.

(** The body of the [try] returns one text or raises. *)
Lemma call_tool_body_returns_text (py : PyLib) (w : World) (name : string)
    (arguments : Arguments) (s s' : state) (l : list TextContent) :
  call_tool_body py w name arguments s = (Ok l, s') ->
  exists t, l = text_content t.
Proof.
  unfold call_tool_body.
  destruct (ai_precheck_run w name s) as (s0 & Hpre & _).
  rewrite (run_bind _ _ _ _ _ Hpre).
  destruct (negb (is_ai_tool name) || analyzer_available w s); cbn [negb].
  - rewrite (run_bind _ _ _ _ _ (file_precheck_run w _ s0)).
    destruct (_ && _).
    + intros [= <- _]. now eexists.
    + unfold bind. destruct (route py w name arguments _ s0) as [[r|e] s1].
      * intros [= <- _]. now eexists.
      * discriminate.
  - intros [= <- _]. now eexists.
Qed.

(** An unknown tool name with a [video_path] that names no file gets the
    answer of the file precheck, not "Unknown tool: ...". *)
Lemma unknown_tool_behind_file_check :
  let w := world_of clip in
  find_tool list_tools "does_not_exist" = None
  /\ response_text
       (call_tool cpython w "does_not_exist"
          (video_arguments "/videos/nope.mp4" None None) fresh)
     = Ok ["Error: Video file not found: /videos/nope.mp4"]
  /\ "Error: Video file not found: /videos/nope.mp4"
     <> "Unknown tool: does_not_exist".
Proof. repeat split; try (vm_compute; reflexivity); discriminate. Qed.

(** C7, amended. For every name and argument bag [call_tool] returns
    exactly one text and never raises: an exception that leaves the body
    of the [try] with message [e] is answered with "Error: {e}".  A name
    outside the catalog is answered with exactly "Unknown tool: {name}"
    when the argument bag has no [video_path], an empty one, or one that
    names an existing file. *)
Theorem call_tool_never_raises
    (py : PyLib) (w : World) (name : string) (arguments : Arguments)
    (s : state) :
  (exists t s', call_tool py w name arguments s = (Ok (text_content t), s'))
  /\ (forall e s',
        call_tool_body py w name arguments s = (Raise e, s') ->
        call_tool py w name arguments s
        = (Ok (text_content ("Error: " ++ e)), s'))
  /\ (find_tool list_tools name = None ->
      (forall p, arg_video_path arguments = Some p ->
                 p = EmptyString \/ os_path_exists w (trace s) p = true) ->
      call_tool py w name arguments s
      = (Ok (text_content ("Unknown tool: " ++ name)), s)).
Proof.
  split; [|split].
  - unfold call_tool, try_except.
    destruct (call_tool_body py w name arguments s) as [[l|e] s'] eqn:E.
    + destruct (call_tool_body_returns_text _ _ _ _ _ _ _ E) as [t ->].
      now exists t, s'.
    + now eexists _, s'.
  - intros e s' E. unfold call_tool, try_except. now rewrite E.
  - intros Hname Hpath.
    destruct (route_unknown py w name arguments
                (get_or (arg_video_path arguments) EmptyString) Hname)
      as [Hai Hroute].
    unfold call_tool, try_except, call_tool_body. rewrite Hai.
    unfold bind at 1, ret at 1. cbn [negb].
    rewrite (run_bind _ _ _ _ _ (file_precheck_run w _ s)).
    replace (_ && _) with false.
    + now rewrite Hroute.
    + symmetry. destruct (arg_video_path arguments) as [p|]; cbn [get_or].
      * destruct (Hpath p eq_refl) as [-> | ->]; [reflexivity|].
        apply andb_false_r.
      * reflexivity.
Qed.

(** In the world of the clip: an unknown name without arguments is
    answered with "Unknown tool: ...", and the [ZeroDivisionError] that
    [num_frames = -1] raises in [extract_frames] with an error text. *)
Lemma call_tool_never_raises_witness :
  let w := world_of clip in
  find_tool list_tools "does_not_exist" = None
  /\ call_tool cpython w "does_not_exist" no_arguments fresh
     = (Ok (text_content "Unknown tool: does_not_exist"), fresh)
  /\ (exists s',
        call_tool_body cpython w "extract_video_frames"
          (video_arguments "/videos/clip.mp4" (Some (-1)) None) fresh
        = (Raise "float division by zero", s')
        /\ call_tool cpython w "extract_video_frames"
             (video_arguments "/videos/clip.mp4" (Some (-1)) None) fresh
           = (Ok (text_content "Error: float division by zero"), s')).
Proof.
  intro w. split; [reflexivity|].
  destruct (call_tool_never_raises cpython w "does_not_exist" no_arguments
              fresh) as (_ & _ & Hunknown).
  split.
  - apply Hunknown; [reflexivity|]. intros p Hp. discriminate Hp.
  - destruct (call_tool_never_raises cpython w "extract_video_frames"
                (video_arguments "/videos/clip.mp4" (Some (-1)) None) fresh)
      as (_ & Hraise & _).
    eexists. split; [|apply Hraise]; apply run_eta; vm_compute; reflexivity.
Defined.

(** ** call_tool: get_video_info *)

(** C9. When the file precheck passes and [get_video_info] returns its
    metadata, the response is the template, field by field. *)
Theorem get_video_info_template
    (py : PyLib) (w : World) (arguments : Arguments) (s s1 : state)
    (m : VideoMetadata) :
  let video_path := get_or (arg_video_path arguments) EmptyString in
  (video_path = EmptyString \/ os_path_exists w (trace s) video_path = true) ->
  get_video_info py w video_path s = (Ok (Info m), s1) ->
  call_tool py w "get_video_info" arguments s
  = (Ok [{| type := "text";
            text := "Video Information:" ++ nl
                    ++ "- File: " ++ filename m ++ nl
                    ++ "- Duration: " ++ format_2f py (duration m)
                    ++ " seconds (" ++ format_1f py (duration m / 60)%Q
                    ++ " minutes)" ++ nl
                    ++ "- Resolution: " ++ str_int (width m) ++ "x"
                    ++ str_int (height m) ++ nl
                    ++ "- Video Codec: " ++ codec m |}], s1).
Proof.
  intros video_path Hpath Hinfo.
  unfold call_tool, try_except, call_tool_body.
  change (is_ai_tool "get_video_info") with false.
  unfold bind at 1, ret at 1. cbn [negb]. fold video_path.
  rewrite (run_bind _ _ _ _ _ (file_precheck_run w _ s)).
  replace (_ && _) with false
    by (symmetry; destruct Hpath as [-> | ->];
        [reflexivity|apply andb_false_r]).
  change (route py w "get_video_info" arguments video_path)
    with (tool_get_video_info py w video_path).
  unfold tool_get_video_info.
  rewrite (run_bind _ _ _ _ _ (run_bind _ _ _ _ _ Hinfo)).
  unfold ret, text_content, video_information.
  repeat f_equal.
Qed.

(** The ten second 1280x720 h264 clip. *)
Lemma get_video_info_template_witness :
  let w := world_of clip in
  let arguments := video_arguments "/videos/clip.mp4" None None in
  os_path_exists w (trace fresh) "/videos/clip.mp4" = true
  /\ fst (get_video_info cpython w "/videos/clip.mp4" fresh)
     = Ok (Info clip_metadata)
  /\ response_text (call_tool cpython w "get_video_info" arguments fresh)
     = Ok ["Video Information:" ++ nl
           ++ "- File: clip.mp4" ++ nl
           ++ "- Duration: 10.00 seconds (0.2 minutes)" ++ nl
           ++ "- Resolution: 1280x720" ++ nl
           ++ "- Video Codec: h264"].
Proof.
  intros w arguments. split; [reflexivity|].
  split; [vm_compute; reflexivity|].
  assert (E : get_video_info cpython w "/videos/clip.mp4" fresh
              = (Ok (Info clip_metadata),
                 snd (get_video_info cpython w "/videos/clip.mp4" fresh)))
    by (apply run_eta; vm_compute; reflexivity).
  unfold response_text.
  rewrite (get_video_info_template cpython w arguments fresh _ clip_metadata
             (or_intror eq_refl) E).
  vm_compute. reflexivity.
Defined.

(** ** call_tool: numeric arguments *)

(** Two argument bags with the same [video_path] that the routed tool
    does not tell apart get the same answer. *)
Lemma call_tool_ext (py : PyLib) (w : World) (name : string)
    (a1 a2 : Arguments) (s : state) :
  arg_video_path a1 = arg_video_path a2 ->
  (forall video_path,
     route py w name a1 video_path = route py w name a2 video_path) ->
  call_tool py w name a1 s = call_tool py w name a2 s.
Proof.
  intros Hpath Hroute. unfold call_tool, call_tool_body.
  rewrite Hpath.
  now rewrite (Hroute (get_or (arg_video_path a2) EmptyString)).
Qed.






(** ** download_video: the quality *)



(* ------------------------------------------------------------------ *)
(** * Further properties of the backends *)

(** ** extract_frames: what it returns *)


Lemma subseq_in {A} (l1 l2 : list A) (x : A) :
  subseq l1 l2 -> In x l1 -> In x l2.
Proof.
  induction 1 as [|y l1 l2 _ IH|y l1 l2 _ IH]; simpl; intros Hx.
  - exact Hx.
  - right. now apply IH.
  - destruct Hx as [->|Hx]; [now left | right; now apply IH].
Qed.





(** X2. When the metadata probe reports an error or a duration that is
    not positive, [extract_frames] returns the empty list and has
    requested nothing but the directory and the probes: no frame is
    captured. *)
Theorem extract_frames_needs_duration
    (py : PyLib) (w : World) (video_path : string) (num_frames : Z)
    (output_dir : option string) (s s1 : state) (info : video_info) :
  let dir := default_output_dir py video_path output_dir in
  os_makedirs w (trace s) dir = Ok tt ->
  get_video_info py w video_path (after_makedirs s dir) = (Ok info, s1) ->
  match info with
  | InfoError _ _ => True
  | Info m => (duration m <= 0)%Q
  end ->
  extract_frames py w video_path num_frames output_dir s = (Ok [], s1)
  /\ exists probes,
       extends_by s s1 (Makedirs dir :: probes) /\ Forall is_probe probes.
Proof.
  intros dir Hmk Hinfo Hdur. split.
  - unfold extract_frames. fold dir.
    rewrite (run_bind _ _ s (after_makedirs s dir) tt).
    2:{ unfold makedirs, perform, after_makedirs. now rewrite Hmk. }
    rewrite (run_bind _ _ _ _ _ Hinfo).
    destruct info as [m|e p]; [|reflexivity].
    replace (Qle_bool (duration m) 0) with true; [reflexivity|].
    symmetry. now apply Qle_bool_iff.
  - destruct (get_video_info_returns py w video_path (after_makedirs s dir))
      as (info' & s1' & probes & Heq & [Htr Hai] & Hprobes).
    rewrite Hinfo in Heq. injection Heq as _ <-.
    exists probes. split; [|exact Hprobes].
    split; [|exact Hai].
    rewrite Htr. unfold after_makedirs; simpl. now rewrite <- app_assoc.
Qed.

Lemma extract_frames_needs_duration_witness :
  let w := world_of (with_duration_probe clip (completed 0 "0.000000")) in
  os_makedirs w (trace fresh) "/videos" = Ok tt
  /\ (exists m s1,
        get_video_info cpython w "/videos/clip.mp4"
          (after_makedirs fresh "/videos") = (Ok (Info m), s1)
        /\ (duration m <= 0)%Q)
  /\ fst (extract_frames cpython w "/videos/clip.mp4" 5 None fresh) = Ok [].
Proof.
  intro w.
  set (m := {| duration := 0.000000%Q; width := 1280; height := 720;
               codec := "h264"; path := "/videos/clip.mp4";
               filename := "clip.mp4" |}).
  assert (E : get_video_info cpython w "/videos/clip.mp4"
                (after_makedirs fresh "/videos")
              = (Ok (Info m),
                 snd (get_video_info cpython w "/videos/clip.mp4"
                        (after_makedirs fresh "/videos"))))
    by (apply run_eta; vm_compute; reflexivity).
  assert (Hd : (duration m <= 0)%Q) by (vm_compute; discriminate).
  split; [reflexivity|]. split; [now eexists m, _|].
  destruct (extract_frames_needs_duration cpython w "/videos/clip.mp4" 5 None
              fresh _ (Info m) eq_refl E Hd) as [H _].
  now rewrite H.
Defined.

(** X3. With a positive duration, a [num_frames] below 1 captures
    nothing: [-1] makes the interval a division by zero, which
    [extract_frames] raises; any other value gives the empty list. *)
Theorem extract_frames_without_count
    (py : PyLib) (w : World) (video_path : string) (num_frames : Z)
    (output_dir : option string) (s s1 : state) (m : VideoMetadata) :
  let dir := default_output_dir py video_path output_dir in
  os_makedirs w (trace s) dir = Ok tt ->
  get_video_info py w video_path (after_makedirs s dir) = (Ok (Info m), s1) ->
  (0 < duration m)%Q ->
  (num_frames < 1)%Z ->
  extract_frames py w video_path num_frames output_dir s
  = (if (num_frames =? -1)%Z then Raise "float division by zero" else Ok [],
     s1).
Proof.
  intros dir Hmk Hinfo Hdur Hn.
  unfold extract_frames. fold dir.
  rewrite (run_bind _ _ s (after_makedirs s dir) tt).
  2:{ unfold makedirs, perform, after_makedirs. now rewrite Hmk. }
  rewrite (run_bind _ _ _ _ _ Hinfo).
  replace (Qle_bool (duration m) 0) with false.
  2:{ symmetry. apply not_true_is_false. rewrite Qle_bool_iff.
      now apply Qlt_not_le. }
  unfold float_div_int, bind at 1, lift.
  destruct (num_frames =? -1)%Z eqn:E.
  - apply Z.eqb_eq in E. subst num_frames. reflexivity.
  - apply Z.eqb_neq in E.
    replace (num_frames + 1 =? 0)%Z with false
      by (symmetry; apply Z.eqb_neq; lia).
    unfold py_range. replace (Z.to_nat (num_frames + 1 - 1)) with 0%nat by lia.
    reflexivity.
Qed.

Lemma extract_frames_without_count_witness :
  let w := world_of clip in
  os_makedirs w (trace fresh) "/videos" = Ok tt
  /\ fst (get_video_info cpython w "/videos/clip.mp4"
            (after_makedirs fresh "/videos")) = Ok (Info clip_metadata)
  /\ fst (extract_frames cpython w "/videos/clip.mp4" (-1) None fresh)
     = Raise "float division by zero"
  /\ fst (extract_frames cpython w "/videos/clip.mp4" 0 None fresh) = Ok [].
Proof.
  intro w.
  assert (E : get_video_info cpython w "/videos/clip.mp4"
                (after_makedirs fresh "/videos")
              = (Ok (Info clip_metadata),
                 snd (get_video_info cpython w "/videos/clip.mp4"
                        (after_makedirs fresh "/videos"))))
    by (apply run_eta; vm_compute; reflexivity).
  split; [reflexivity|]. split; [now rewrite E|]. split.
  - now rewrite (extract_frames_without_count cpython w "/videos/clip.mp4"
                   (-1) None fresh _ clip_metadata eq_refl E eq_refl
                   ltac:(lia)).
  - now rewrite (extract_frames_without_count cpython w "/videos/clip.mp4"
                   0 None fresh _ clip_metadata eq_refl E eq_refl
                   ltac:(lia)).
Defined.

(** ** extract_audio *)

(** X4. [extract_audio] runs exactly one [ffmpeg] command.  It returns
    either the empty string or the output path, and the output path only
    when the command exited with 0 and the file is on the disk
    afterwards. *)
Theorem extract_audio_returns_existing_file
    (py : PyLib) (w : World) (video_path : string)
    (output_path : option string) (s s' : state) (audio_file : string) :
  let out := audio_output_path py video_path output_path in
  extract_audio py w video_path output_path s = (Ok audio_file, s') ->
  trace s' = (trace s ++ [Run (audio_cmd video_path out)])%list
  /\ (audio_file = EmptyString
      \/ (audio_file = out
          /\ (exists r, subprocess_run w (trace s) (audio_cmd video_path out)
                        = Ok r /\ returncode r = 0%Z)
          /\ os_path_exists w (trace s') out = true)).
Proof.
  intros out. unfold extract_audio.
  change (match output_path with
          | Some p => p
          | None => os_path_join py (dirname_or_dot py video_path)
                      (Path_stem py video_path ++ "_audio.mp3")
          end) with out.
  unfold bind at 1, run, perform.
  destruct (subprocess_run w (trace s) (audio_cmd video_path out)) as [r|e];
    [|discriminate].
  unfold bind, exists_, observe, ret.
  destruct (returncode r =? 0)%Z eqn:Erc; cbn [trace].
  - destruct (os_path_exists w _ out) eqn:Eex; intros [= <- <-];
      (split; [reflexivity|]); [right|now left].
    split; [reflexivity|]. split; [|exact Eex].
    exists r. split; [reflexivity|now apply Z.eqb_eq].
  - intros [= <- <-]. split; [reflexivity|now left].
Qed.

Lemma extract_audio_returns_existing_file_witness :
  let w := world_of clip in
  fst (extract_audio cpython w "/videos/clip.mp4" None fresh)
  = Ok "/videos/clip_audio.mp3"
  /\ trace (snd (extract_audio cpython w "/videos/clip.mp4" None fresh))
     = [Run (audio_cmd "/videos/clip.mp4" "/videos/clip_audio.mp3")].
Proof.
  intro w.
  assert (E : extract_audio cpython w "/videos/clip.mp4" None fresh
              = (Ok "/videos/clip_audio.mp3",
                 snd (extract_audio cpython w "/videos/clip.mp4" None fresh)))
    by (apply run_eta; vm_compute; reflexivity).
  split; [now rewrite E|].
  exact (proj1 (extract_audio_returns_existing_file cpython w
                  "/videos/clip.mp4" None fresh _ _ E)).
Defined.

(** ** split_video: what it lists *)



Lemma prefix_append (p s : string) : String.prefix p (p ++ s) = true.
Proof.
  induction p as [|c p IH]; simpl; [now destruct s|].
  destruct (ascii_dec c c); [exact IH|congruence].
Qed.

Lemma prefix_append_same (p a b : string) :
  String.prefix (p ++ a) (p ++ b) = String.prefix a b.
Proof.
  induction p as [|c p IH]; simpl; [reflexivity|].
  destruct (ascii_dec c c); [exact IH|congruence].
Qed.

Lemma length_append (a b : string) :
  String.length (a ++ b) = (String.length a + String.length b)%nat.
Proof. induction a as [|c a IH]; simpl; [reflexivity|now rewrite IH]. Qed.

Lemma append_assoc_l (a b c : string) : a ++ (b ++ c) = (a ++ b) ++ c.
Proof. induction a as [|x a IH]; simpl; [reflexivity|now rewrite IH]. Qed.

Lemma substring_whole (t : string) : String.substring 0 (String.length t) t = t.
Proof. induction t as [|c t IH]; simpl; [reflexivity|now rewrite IH]. Qed.

Lemma substring_suffix (a t : string) :
  String.substring (String.length a) (String.length t) (a ++ t) = t.
Proof. induction a as [|c a IH]; simpl; [apply substring_whole|exact IH]. Qed.

Lemma endswith_append (a t : string) : endswith (a ++ t) t = true.
Proof.
  unfold endswith. rewrite length_append.
  replace (String.length a + String.length t - String.length t)%nat
    with (String.length a) by lia.
  rewrite substring_suffix, String.eqb_refl, andb_true_r.
  apply Nat.leb_le. lia.
Qed.

(** X6. The listing filter of [split_video] accepts every file named by
    the output pattern "{stem}_segment_{index}.mp4", whatever the index
    is written as, and never the input video "{stem}.{ext}" itself. *)
Theorem is_segment_of_pattern (stem index ext : string) :
  is_segment_of stem (stem ++ "_segment_" ++ index ++ ".mp4") = true
  /\ is_segment_of stem (stem ++ "." ++ ext) = false.
Proof.
  unfold is_segment_of, startswith. split.
  - rewrite prefix_append_same, prefix_append. cbn [andb].
    rewrite (append_assoc_l stem), (append_assoc_l (stem ++ "_segment_")).
    apply endswith_append.
  - rewrite prefix_append_same. reflexivity.
Qed.

(** ** The names of the frame files *)

Lemma ascii_compare_refl (c : ascii) : Ascii.compare c c = Eq.
Proof. unfold Ascii.compare. apply N.compare_refl. Qed.

Lemma compare_append_same (p a b : string) :
  String.compare (p ++ a) (p ++ b) = String.compare a b.
Proof.
  induction p as [|c p IH]; simpl; [reflexivity|].
  now rewrite ascii_compare_refl.
Qed.

Lemma compare_lt_trans (a b c : string) :
  String.compare a b = Lt -> String.compare b c = Lt ->
  String.compare a c = Lt.
Proof.
  revert b c. induction a as [|x a IH]; intros [|y b] [|z c]; simpl;
    try congruence.
  destruct (Ascii.compare x y) eqn:Hxy; try congruence;
    destruct (Ascii.compare y z) eqn:Hyz; try congruence; intros Hab Hbc.
  - apply Ascii.compare_eq_iff in Hxy, Hyz. subst.
    rewrite ascii_compare_refl. now apply IH with b.
  - apply Ascii.compare_eq_iff in Hxy. subst. now rewrite Hyz.
  - apply Ascii.compare_eq_iff in Hyz. subst. now rewrite Hxy.
  - now rewrite (ascii_compare_lt_trans _ _ _ Hxy Hyz).
Qed.

Lemma ascending_sorted (l : list string) :
  ascending l = true ->
  StronglySorted (fun a b => String.compare a b = Lt) l.
Proof.
  induction l as [|a l IH]; [constructor|].
  destruct l as [|b l]; [repeat constructor|].
  cbn [ascending]. destruct (String.compare a b) eqn:Hab; try discriminate.
  intros H. specialize (IH H). constructor; [exact IH|].
  constructor; [exact Hab|].
  apply StronglySorted_inv in IH. destruct IH as [_ Hb].
  eapply Forall_impl; [|exact Hb].
  intros c Hc. now apply compare_lt_trans with b.
Qed.

Lemma strongly_sorted_nth {A} (R : A -> A -> Prop) (l : list A) (d : A) :
  StronglySorted R l ->
  forall a b, (a < b < List.length l)%nat -> R (nth a l d) (nth b l d).
Proof.
  induction 1 as [|x l Hl IH Hx]; intros a b Hab; simpl in Hab; [lia|].
  destruct b as [|b]; [lia|]. destruct a as [|a]; simpl.
  - apply (proj1 (Forall_forall _ _) Hx). apply nth_In. lia.
  - apply IH. lia.
Qed.

Lemma nth_frame_suffixes (n a : nat) (d : string) :
  (a < n)%nat ->
  nth a (frame_suffixes n) d = format_03d (Z.of_nat a) ++ ".jpg".
Proof.
  intros Ha. unfold frame_suffixes.
  rewrite (nth_indep _ d ((fun k => format_03d (Z.of_nat k) ++ ".jpg") 0%nat))
    by (rewrite length_map, length_seq; exact Ha).
  rewrite (map_nth (fun k => format_03d (Z.of_nat k) ++ ".jpg")).
  now rewrite seq_nth.
Qed.

(** X7. The name of frame [i] is "{stem}_frame_{i:03d}.jpg".  For
    indices from 0 to 999 these names sort as strings in the order of the
    indices; the three digits stop being enough at 1000, whose name sorts
    before that of 999. *)
Theorem frame_filenames_sort_by_index
    (py : PyLib) (video_path dir : string) (i j : Z) :
  let stem := Path_stem py video_path in
  frame_path_of py video_path dir i
  = os_path_join py dir (frame_filename stem i)
  /\ ((0 <= i)%Z -> (i < j)%Z -> (j <= 999)%Z ->
      String.compare (frame_filename stem i) (frame_filename stem j) = Lt)
  /\ String.compare (frame_filename stem 1000) (frame_filename stem 999) = Lt.
Proof.
  intro stem. unfold frame_filename. split; [reflexivity|]. split.
  - intros Hi Hij Hj.
    rewrite compare_append_same, (compare_append_same "_frame_").
    assert (Hsorted : StronglySorted (fun a b => String.compare a b = Lt)
                        (frame_suffixes 1000))
      by (apply ascending_sorted; vm_compute; reflexivity).
    pose proof (strongly_sorted_nth _ _ EmptyString Hsorted
                  (Z.to_nat i) (Z.to_nat j)) as H.
    unfold frame_suffixes in H at 1. rewrite length_map, length_seq in H.
    specialize (H ltac:(lia)).
    rewrite !nth_frame_suffixes in H by lia.
    now rewrite !Z2Nat.id in H by lia.
  - rewrite compare_append_same. reflexivity.
Qed.

Lemma frame_filenames_sort_by_index_witness :
  String.compare (frame_filename "clip" 9) (frame_filename "clip" 10) = Lt
  /\ sorted [frame_filename "clip" 10; frame_filename "clip" 9]
     = [frame_filename "clip" 9; frame_filename "clip" 10].
Proof.
  split; [|reflexivity].
  exact (proj1 (proj2 (frame_filenames_sort_by_index cpython
                         "/videos/clip.mp4" "/videos" 9 10))
           ltac:(lia) ltac:(lia) ltac:(lia)).
Defined.

(** ** class YouTubeDownloader *)








(** X10. The scan of the output directory after a download picks the
    first entry, in the order of the listing, that starts with the base
    name and does not end with ".part"; it finds nothing exactly when no
    entry is of that kind. *)
Theorem first_downloaded_is_first_match
    (base_name : string) (files : list string) :
  match first_downloaded base_name files with
  | Some f =>
      exists before after,
        files = (before ++ f :: after)%list
        /\ is_download_of base_name f = true
        /\ Forall (fun g => is_download_of base_name g = false) before
  | None => Forall (fun g => is_download_of base_name g = false) files
  end.
Proof.
  induction files as [|g files IH]; simpl; [constructor|].
  fold (is_download_of base_name g).
  destruct (is_download_of base_name g) eqn:Eg.
  - exists [], files. repeat split; [exact Eg|constructor].
  - destruct (first_downloaded base_name files) as [f|].
    + destruct IH as (before & after & -> & Hf & Hb).
      exists (g :: before), after. repeat split; [exact Hf|].
      now constructor.
    + now constructor.
Qed.

(** X11. The keys of the quality table of [download_video] are exactly
    the values the schema of [download_youtube_video] allows for
    [quality], and two different allowed values select different
    formats. *)
Theorem quality_table_matches_schema (enum : list string) (q1 q2 : string) :
  declared_enum "download_youtube_video" "quality" = Some enum ->
  (In q1 enum <-> formats_lookup quality_formats q1 <> None)
  /\ (In q1 enum -> In q2 enum ->
      format_spec_of q1 = format_spec_of q2 -> q1 = q2).
Proof.
  intros Henum. vm_compute in Henum. injection Henum as <-. split.
  - split.
    + simpl. intros H.
      repeat (destruct H as [<-|H]; [vm_compute; discriminate|]).
      contradiction.
    + unfold quality_formats, formats_lookup. intros H.
      repeat match goal with
             | H : context [String.eqb ?lit q1] |- _ =>
                 destruct (String.eqb_spec lit q1) as [<-|_];
                 [simpl; tauto|]
             end.
      congruence.
  - simpl. intros H1 H2.
    repeat (destruct H1 as [<-|H1]; [|]); try contradiction;
      repeat (destruct H2 as [<-|H2]; [|]); try contradiction;
      intros H; try reflexivity; vm_compute in H; discriminate H.
Qed.

Lemma quality_table_matches_schema_witness :
  declared_enum "download_youtube_video" "quality"
  = Some ["360p"; "480p"; "720p"; "1080p"; "best"]
  /\ (In "1080p" ["360p"; "480p"; "720p"; "1080p"; "best"]
      <-> formats_lookup quality_formats "1080p" <> None).
Proof.
  split; [reflexivity|].
  exact (proj1 (quality_table_matches_schema _ "1080p" "best" eq_refl)).
Defined.

(** ** call_tool once the prechecks are passed *)

(** A tool that is not an AI tool, or an AI tool that finds the analyzer
    built, with an argument bag the file precheck lets through: the
    answer is the text of the routed branch, or the message of the
    exception it raises. *)
Lemma call_tool_after_prechecks (py : PyLib) (w : World) (name : string)
    (arguments : Arguments) (s : state) :
  is_ai_tool name = false \/ ai_analyzer s <> None ->
  file_precheck_passes w arguments s ->
  call_tool py w name arguments s
  = match route py w name arguments
            (get_or (arg_video_path arguments) EmptyString) s with
    | (Ok result, s') => (Ok (text_content result), s')
    | (Raise e, s') => (Ok (text_content ("Error: " ++ e)), s')
    end.
Proof.
  intros Hready Hpath.
  assert (Hpre : (if is_ai_tool name
                  then (a <- get_ai_analyzer ;;
                        match a with
                        | Some _ => ret true
                        | None => init_analyzer w
                        end)%monad
                  else ret true) s = (Ok true, s)).
  { destruct (is_ai_tool name); [|reflexivity].
    destruct Hready as [H|H]; [discriminate|].
    unfold bind, get_ai_analyzer.
    destruct (ai_analyzer s); [reflexivity|congruence]. }
  unfold call_tool, try_except, call_tool_body.
  rewrite (run_bind _ _ _ _ _ Hpre). cbn [negb].
  rewrite (run_bind _ _ _ _ _ (file_precheck_run w _ s)).
  replace (_ && _) with false.
  - unfold bind, ret. now destruct (route py w name arguments _ s) as [[r|e] s'].
  - symmetry. unfold file_precheck_passes in Hpath.
    destruct (arg_video_path arguments) as [p|]; cbn [get_or];
      [|reflexivity].
    destruct (Hpath p eq_refl) as [-> | ->]; [reflexivity|apply andb_false_r].
Qed.

(** X12. Either YouTube tool called without a [url], or with an empty
    one, answers "Error: YouTube URL is required" and calls no backend:
    [yt_dlp] is not even imported. *)
Theorem youtube_tools_need_a_url
    (py : PyLib) (w : World) (name : string) (arguments : Arguments)
    (s : state) :
  name = "get_youtube_info" \/ name = "download_youtube_video" ->
  get_or (arg_url arguments) EmptyString = EmptyString ->
  file_precheck_passes w arguments s ->
  call_tool py w name arguments s
  = (Ok (text_content "Error: YouTube URL is required"), s).
Proof.
  intros Hname Hurl Hpath.
  rewrite call_tool_after_prechecks;
    [|left; destruct Hname as [-> | ->]; reflexivity|exact Hpath].
  destruct Hname as [-> | ->].
  - change (route py w "get_youtube_info" arguments ?vp)
      with (tool_get_youtube_info py w arguments).
    unfold tool_get_youtube_info. now rewrite Hurl.
  - change (route py w "download_youtube_video" arguments ?vp)
      with (tool_download_youtube_video py w arguments).
    unfold tool_download_youtube_video. now rewrite Hurl.
Qed.

Lemma youtube_tools_need_a_url_witness :
  let w := world_of clip in
  file_precheck_passes w no_arguments fresh
  /\ call_tool cpython w "download_youtube_video" no_arguments fresh
     = (Ok (text_content "Error: YouTube URL is required"), fresh).
Proof.
  intro w.
  assert (H : file_precheck_passes w no_arguments fresh)
    by (intros p Hp; discriminate Hp).
  split; [exact H|].
  exact (youtube_tools_need_a_url cpython w "download_youtube_video"
           no_arguments fresh (or_intror eq_refl) eq_refl H).
Defined.

(** X13. When [import yt_dlp] fails, either YouTube tool called with a
    [url] answers "Error: " followed by the message of the import error,
    and nothing else has been requested: no directory made, no request
    to the site. *)
Theorem youtube_tools_without_yt_dlp
    (py : PyLib) (w : World) (name : string) (arguments : Arguments)
    (s : state) (url e : string) :
  name = "get_youtube_info" \/ name = "download_youtube_video" ->
  arg_url arguments = Some url ->
  url <> EmptyString ->
  file_precheck_passes w arguments s ->
  import_yt_dlp w (trace s) = Raise e ->
  call_tool py w name arguments s
  = (Ok (text_content ("Error: " ++ e)),
     {| ai_analyzer := ai_analyzer s;
        trace := (trace s ++ [ImportYtDlp])%list |}).
Proof.
  intros Hname Hurl Hne Hpath Himp.
  apply String.eqb_neq in Hne.
  rewrite call_tool_after_prechecks;
    [|left; destruct Hname as [-> | ->]; reflexivity|exact Hpath].
  destruct Hname as [-> | ->].
  - change (route py w "get_youtube_info" arguments ?vp)
      with (tool_get_youtube_info py w arguments).
    unfold tool_get_youtube_info. rewrite Hurl. cbn [get_or]. rewrite Hne.
    unfold bind at 1, get_video_info_url, bind at 1, perform.
    now rewrite Himp.
  - change (route py w "download_youtube_video" arguments ?vp)
      with (tool_download_youtube_video py w arguments).
    unfold tool_download_youtube_video. rewrite Hurl. cbn [get_or].
    rewrite Hne.
    unfold bind at 1, download_video, bind at 1, perform.
    now rewrite Himp.
Qed.

Lemma youtube_tools_without_yt_dlp_witness :
  let w := no_yt_dlp (world_of clip) in
  let arguments := url_arguments "https://youtu.be/x" in
  import_yt_dlp w (trace fresh) = Raise "No module named 'yt_dlp'"
  /\ response_text (call_tool cpython w "get_youtube_info" arguments fresh)
     = Ok ["Error: No module named 'yt_dlp'"].
Proof.
  intros w arguments. split; [reflexivity|].
  assert (H : file_precheck_passes w arguments fresh)
    by (intros p Hp; discriminate Hp).
  unfold response_text.
  now rewrite (youtube_tools_without_yt_dlp cpython w "get_youtube_info"
                 arguments fresh "https://youtu.be/x" _ (or_introl eq_refl)
                 eq_refl ltac:(discriminate) H eq_refl).
Defined.

(** ** The global analyzer *)

Lemma keeps_ret {A} (a : A) : keeps_analyzer (ret a).
Proof. intro s. reflexivity. Qed.

Lemma keeps_raise {A} (e : string) : keeps_analyzer (@raise A e).
Proof. intro s. reflexivity. Qed.

Lemma keeps_lift {A} (r : result A) : keeps_analyzer (lift r).
Proof. intro s. reflexivity. Qed.

Lemma keeps_observe {A} (f : list event -> A) : keeps_analyzer (observe f).
Proof. intro s. reflexivity. Qed.

Lemma keeps_perform {A} (e : event) (f : list event -> result A) :
  keeps_analyzer (perform e f).
Proof. intro s. reflexivity. Qed.

Lemma keeps_get_ai_analyzer : keeps_analyzer get_ai_analyzer.
Proof. intro s. reflexivity. Qed.

Lemma keeps_bind {A B} (c : M A) (k : A -> M B) :
  keeps_analyzer c -> (forall a, keeps_analyzer (k a)) ->
  keeps_analyzer (bind c k).
Proof.
  intros Hc Hk s. unfold bind. specialize (Hc s).
  destruct (c s) as [[a|e] s1]; simpl in Hc; [|exact Hc].
  now rewrite (Hk a s1).
Qed.

Lemma keeps_try_except {A} (c : M A) (h : string -> M A) :
  keeps_analyzer c -> (forall e, keeps_analyzer (h e)) ->
  keeps_analyzer (try_except c h).
Proof.
  intros Hc Hh s. unfold try_except. specialize (Hc s).
  destruct (c s) as [[a|e] s1]; simpl in Hc; [exact Hc|].
  now rewrite (Hh e s1).
Qed.

Lemma keeps_for_each {A B} (body : B -> A -> M B) (l : list A) :
  (forall acc x, keeps_analyzer (body acc x)) ->
  forall acc, keeps_analyzer (for_each body l acc).
Proof.
  intros Hbody. induction l as [|x l IH]; intro acc; simpl.
  - apply keeps_ret.
  - apply keeps_bind; [apply Hbody | exact IH].
Qed.

Ltac keeps_step :=
  first
    [ apply keeps_ret | apply keeps_raise | apply keeps_lift
    | apply keeps_observe | apply keeps_get_ai_analyzer
    | apply keeps_perform
    | apply keeps_for_each; intros ? ?
    | apply keeps_try_except; [|intros ?]
    | apply keeps_bind; [|intros ?]
    | match goal with
      | |- keeps_analyzer (if ?b then _ else _) => destruct b
      | |- keeps_analyzer (match ?x with _ => _ end) => destruct x
      | |- keeps_analyzer (let _ := _ in _) => cbv zeta
      end ].

Ltac keeps := repeat keeps_step.

Lemma keeps_get_video_info (py : PyLib) (w : World) (video_path : string) :
  keeps_analyzer (get_video_info py w video_path).
Proof. unfold get_video_info, run, exists_. keeps. Qed.

Lemma keeps_extract_frames (py : PyLib) (w : World) (video_path : string)
    (num_frames : Z) (output_dir : option string) :
  keeps_analyzer (extract_frames py w video_path num_frames output_dir).
Proof.
  unfold extract_frames, makedirs, run, exists_.
  apply keeps_bind; [keeps|intros _].
  apply keeps_bind; [apply keeps_get_video_info|intros info]. keeps.
Qed.

Lemma keeps_extract_audio (py : PyLib) (w : World) (video_path : string)
    (output_path : option string) :
  keeps_analyzer (extract_audio py w video_path output_path).
Proof. unfold extract_audio, run, exists_. keeps. Qed.

Lemma keeps_split_video (py : PyLib) (w : World) (video_path : string)
    (segment_duration : Z) (output_dir : option string) :
  keeps_analyzer (split_video py w video_path segment_duration output_dir).
Proof.
  unfold split_video, makedirs, run, listdir.
  apply keeps_bind; [keeps|intros _].
  apply keeps_bind; [apply keeps_get_video_info|intros info]. keeps.
Qed.

Lemma keeps_download_video (py : PyLib) (w : World) (url : string)
    (output_dir : option string) (quality : string) :
  keeps_analyzer (download_video py w url output_dir quality).
Proof. unfold download_video, makedirs, listdir, exists_. keeps. Qed.

Lemma keeps_get_video_info_url (w : World) (url : string) :
  keeps_analyzer (get_video_info_url w url).
Proof. unfold get_video_info_url. keeps. Qed.

Lemma keeps_transcribe_audio (w : World) (audio_path : string) :
  keeps_analyzer (transcribe_audio w audio_path).
Proof. unfold transcribe_audio. keeps. Qed.

Lemma keeps_analyze_video (py : PyLib) (w : World) (video_path prompt : string)
    (num_frames : Z) (include_audio : bool) :
  keeps_analyzer (analyze_video py w video_path prompt num_frames include_audio).
Proof.
  unfold analyze_video.
  apply keeps_bind; [apply keeps_extract_frames|intros frames].
  destruct frames; [keeps|].
  apply keeps_bind; [unfold analyze_frames; keeps|intros visual].
  destruct include_audio; [|keeps].
  apply keeps_bind; [apply keeps_extract_audio|intros audio_path].
  destruct (String.eqb audio_path EmptyString); [keeps|].
  apply keeps_try_except; [|intro; keeps].
  apply keeps_bind; [apply keeps_transcribe_audio|intro; keeps].
Qed.

Lemma keeps_route (py : PyLib) (w : World) (name : string)
    (arguments : Arguments) (video_path : string) :
  keeps_analyzer (route py w name arguments video_path).
Proof.
  unfold route.
  repeat match goal with
         | |- keeps_analyzer (if String.eqb name ?lit then _ else _) =>
             destruct (String.eqb name lit)
         end.
  - unfold tool_get_video_info.
    apply keeps_bind; [apply keeps_get_video_info|intro; keeps].
  - unfold tool_extract_video_frames.
    apply keeps_bind; [apply keeps_extract_frames|intro; keeps].
  - unfold tool_extract_video_audio.
    apply keeps_bind; [apply keeps_extract_audio|intro; keeps].
  - unfold tool_split_video.
    apply keeps_bind; [apply keeps_split_video|intro; keeps].
  - unfold tool_get_youtube_info.
    destruct (String.eqb _ EmptyString); [keeps|].
    apply keeps_bind; [apply keeps_get_video_info_url|intro; keeps].
  - unfold tool_download_youtube_video.
    destruct (String.eqb _ EmptyString); [keeps|].
    apply keeps_bind; [apply keeps_download_video|intro; keeps].
  - unfold tool_analyze_video.
    apply keeps_bind; [keeps|intros [a|]; [|keeps]].
    apply keeps_bind; [apply keeps_analyze_video|intro; keeps].
  - unfold tool_summarize_video.
    apply keeps_bind; [keeps|intros [a|]; [|keeps]].
    apply keeps_bind; [apply keeps_analyze_video|intro; keeps].
  - unfold tool_transcribe_video.
    apply keeps_bind; [keeps|intros [a|]; [|keeps]].
    apply keeps_bind; [apply keeps_extract_audio|intro].
    destruct (String.eqb _ EmptyString); [keeps|].
    apply keeps_try_except; [|intro; keeps].
    apply keeps_bind; [apply keeps_transcribe_audio|intro; keeps].
  - unfold tool_analyze_video_complete.
    apply keeps_bind; [keeps|intros [a|]; [|keeps]].
    apply keeps_bind; [apply keeps_analyze_video|intro; keeps].
  - keeps.
Qed.

(** X14. A call of [call_tool] changes the global analyzer in one case
    only: an AI tool called while there is none, with a non-empty
    credential from which the client can be built.  An analyzer that is
    there is never replaced or cleared, tools that are not AI tools never
    build one, and a client constructor that raises leaves none. *)
Theorem call_tool_analyzer_lifecycle
    (py : PyLib) (w : World) (name : string) (arguments : Arguments)
    (s : state) :
  ai_analyzer (snd (call_tool py w name arguments s)) = analyzer_after w name s.
Proof.
  assert (Hpre : exists s0,
             (if is_ai_tool name
              then (a <- get_ai_analyzer ;;
                    match a with
                    | Some _ => ret true
                    | None => init_analyzer w
                    end)%monad
              else ret true) s
             = (Ok (negb (is_ai_tool name) || analyzer_available w s), s0)
             /\ ai_analyzer s0 = analyzer_after w name s).
  { unfold analyzer_available, analyzer_after.
    destruct (is_ai_tool name).
    - unfold bind, get_ai_analyzer.
      destruct (ai_analyzer s) as [a|] eqn:Ea;
        [exists s; split; [reflexivity|exact Ea]|].
      unfold init_analyzer. destruct (environ_GROQ_API_KEY w) as [k|];
        [|exists s; split; [reflexivity|exact Ea]].
      destruct (String.eqb k EmptyString);
        [exists s; split; [reflexivity|exact Ea]|].
      unfold try_except, bind, lift, set_ai_analyzer, ret.
      destruct (AsyncGroq w k) as [[]|e]; eexists; split; try reflexivity.
      exact Ea.
    - exists s. split; [reflexivity|]. now destruct (ai_analyzer s). }
  destruct Hpre as (s0 & Hpre & Hs0).
  unfold call_tool, try_except, call_tool_body.
  rewrite (run_bind _ _ _ _ _ Hpre).
  destruct (negb (is_ai_tool name) || analyzer_available w s); cbn [negb];
    [|exact Hs0].
  rewrite (run_bind _ _ _ _ _ (file_precheck_run w _ s0)).
  destruct (_ && _); [exact Hs0|].
  unfold bind, ret.
  pose proof (keeps_route py w name arguments
                (get_or (arg_video_path arguments) EmptyString) s0) as Hk.
  destruct (route py w name arguments _ s0) as [[r|e] s1]; simpl in Hk |- *;
    now rewrite Hk.
Qed.

(** ** Tools whose backend finds nothing to work on *)

Lemma extract_frames_stops (py : PyLib) (w : World) (video_path : string)
    (num_frames : Z) (output_dir : option string) (s s1 : state)
    (info : video_info) :
  let dir := default_output_dir py video_path output_dir in
  os_makedirs w (trace s) dir = Ok tt ->
  get_video_info py w video_path (after_makedirs s dir) = (Ok info, s1) ->
  match info with
  | InfoError _ _ => True
  | Info m => (duration m <= 0)%Q
  end ->
  extract_frames py w video_path num_frames output_dir s = (Ok [], s1).
Proof.
  intros dir Hmk Hinfo Hdur. unfold extract_frames. fold dir.
  rewrite (run_bind _ _ s (after_makedirs s dir) tt).
  2:{ unfold makedirs, perform, after_makedirs. now rewrite Hmk. }
  rewrite (run_bind _ _ _ _ _ Hinfo).
  destruct info as [m|e p]; [|reflexivity].
  replace (Qle_bool (duration m) 0) with true; [reflexivity|].
  symmetry. now apply Qle_bool_iff.
Qed.

(** X15. With an analyzer built, [analyze_video], [summarize_video] and
    [analyze_video_complete] on a video whose probe reports an error or a
    duration that is not positive answer "Error: Failed to extract frames
    from video" and stop after the probes: no frame is read, no request
    goes to the API, and no audio is extracted. *)
Theorem ai_tools_without_frames
    (py : PyLib) (w : World) (name : string) (arguments : Arguments)
    (s s1 : state) (info : video_info) :
  let video_path := get_or (arg_video_path arguments) EmptyString in
  let dir := dirname_or_dot py video_path in
  In name ["analyze_video"; "summarize_video"; "analyze_video_complete"] ->
  ai_analyzer s <> None ->
  file_precheck_passes w arguments s ->
  os_makedirs w (trace s) dir = Ok tt ->
  get_video_info py w video_path (after_makedirs s dir) = (Ok info, s1) ->
  match info with
  | InfoError _ _ => True
  | Info m => (duration m <= 0)%Q
  end ->
  call_tool py w name arguments s
  = (Ok (text_content "Error: Failed to extract frames from video"), s1).
Proof.
  intros video_path dir Hname Hai Hpath Hmk Hinfo Hdur.
  rewrite call_tool_after_prechecks; [|now right|exact Hpath].
  fold video_path.
  assert (Hframes : forall n,
             extract_frames py w video_path n None s = (Ok [], s1))
    by (intro n; now apply extract_frames_stops with info).
  destruct (ai_analyzer s) as [a|] eqn:Ea; [|congruence].
  simpl in Hname.
  destruct Hname as [<-|[<-|[<-|[]]]].
  - change (route py w "analyze_video" arguments video_path)
      with (tool_analyze_video py w arguments video_path).
    unfold tool_analyze_video, bind at 1, get_ai_analyzer. rewrite Ea.
    unfold bind at 1, analyze_video.
    now rewrite (run_bind _ _ _ _ _ (Hframes _)).
  - change (route py w "summarize_video" arguments video_path)
      with (tool_summarize_video py w arguments video_path).
    unfold tool_summarize_video, bind at 1, get_ai_analyzer. rewrite Ea.
    unfold bind at 1, analyze_video.
    now rewrite (run_bind _ _ _ _ _ (Hframes _)).
  - change (route py w "analyze_video_complete" arguments video_path)
      with (tool_analyze_video_complete py w arguments video_path).
    unfold tool_analyze_video_complete, bind at 1, get_ai_analyzer.
    rewrite Ea. unfold bind at 1, analyze_video.
    now rewrite (run_bind _ _ _ _ _ (Hframes _)).
Qed.

Lemma ai_tools_without_frames_witness :
  let w := world_of (with_duration_probe clip (completed 1 EmptyString)) in
  let arguments := video_arguments "/videos/clip.mp4" None None in
  let s := {| ai_analyzer := Some {| client_api_key := "gsk_test" |};
              trace := [] |} in
  file_precheck_passes w arguments s
  /\ response_text (call_tool cpython w "analyze_video_complete" arguments s)
     = Ok ["Error: Failed to extract frames from video"]
  /\ trace (snd (call_tool cpython w "analyze_video_complete" arguments s))
     = [Makedirs "/videos"; Run (duration_cmd "/videos/clip.mp4");
        Run (size_cmd "/videos/clip.mp4"); Run (codec_cmd "/videos/clip.mp4")].
Proof.
  intros w arguments s.
  assert (Hpath : file_precheck_passes w arguments s)
    by (intros p [= <-]; now right).
  set (m := {| duration := 0; width := 1280; height := 720; codec := "h264";
               path := "/videos/clip.mp4"; filename := "clip.mp4" |}).
  assert (E : get_video_info cpython w "/videos/clip.mp4"
                (after_makedirs s "/videos")
              = (Ok (Info m),
                 snd (get_video_info cpython w "/videos/clip.mp4"
                        (after_makedirs s "/videos"))))
    by (apply run_eta; vm_compute; reflexivity).
  pose proof (ai_tools_without_frames cpython w "analyze_video_complete"
                arguments s _ (Info m)
                ltac:(simpl; tauto) ltac:(discriminate) Hpath eq_refl E
                ltac:(vm_compute; discriminate)) as H.
  split; [exact Hpath|]. unfold response_text. rewrite H.
  split; [reflexivity|]. vm_compute. reflexivity.
Defined.

(** X16. With an analyzer built, [transcribe_video] sends a
    transcription request only for an extracted audio file: if
    [extract_audio] returns no file the answer is "Error: Failed to
    extract audio from video" and nothing more is requested; an exception
    of the transcription is answered with "Error transcribing audio: "
    and its message, not by the outer handler. *)
Theorem transcribe_video_answers
    (py : PyLib) (w : World) (arguments : Arguments) (s s1 : state)
    (audio_path : string) :
  let video_path := get_or (arg_video_path arguments) EmptyString in
  ai_analyzer s <> None ->
  file_precheck_passes w arguments s ->
  extract_audio py w video_path None s = (Ok audio_path, s1) ->
  call_tool py w "transcribe_video" arguments s
  = if String.eqb audio_path EmptyString
    then (Ok (text_content "Error: Failed to extract audio from video"), s1)
    else match transcribe_audio w audio_path s1 with
         | (Ok transcript, s2) =>
             (Ok (text_content ("=== Audio Transcription ===" ++ nl ++ nl
                                ++ transcript)), s2)
         | (Raise e, s2) =>
             (Ok (text_content ("Error transcribing audio: " ++ e)), s2)
         end.
Proof.
  intros video_path Hai Hpath Haudio.
  rewrite call_tool_after_prechecks; [|now right|exact Hpath].
  fold video_path.
  change (route py w "transcribe_video" arguments video_path)
    with (tool_transcribe_video py w video_path).
  unfold tool_transcribe_video, bind at 1, get_ai_analyzer.
  destruct (ai_analyzer s) as [a|]; [|congruence].
  rewrite (run_bind _ _ _ _ _ Haudio).
  destruct (String.eqb audio_path EmptyString); [reflexivity|].
  unfold try_except, bind, ret.
  now destruct (transcribe_audio w audio_path s1) as [[t|e] s2].
Qed.

Lemma transcribe_video_answers_witness :
  let arguments := video_arguments "/videos/clip.mp4" None None in
  let s := {| ai_analyzer := Some {| client_api_key := "gsk_test" |};
              trace := [] |} in
  response_text
    (call_tool cpython (world_of silent_clip) "transcribe_video" arguments s)
  = Ok ["Error: Failed to extract audio from video"]
  /\ response_text
       (call_tool cpython (world_of rate_limited_clip) "transcribe_video"
          arguments s)
     = Ok ["Error transcribing audio: rate limit"].
Proof.
  intros arguments s.
  assert (Hpath : forall f, fx_files f = fx_files clip ->
                  file_precheck_passes (world_of f) arguments s).
  { intros f Hf p [= <-]. right. simpl. now rewrite Hf. }
  split; unfold response_text.
  - rewrite (transcribe_video_answers cpython (world_of silent_clip)
               arguments s _ EmptyString ltac:(discriminate)
               (Hpath _ eq_refl)
               ltac:(apply run_eta; vm_compute; reflexivity)).
    reflexivity.
  - rewrite (transcribe_video_answers cpython (world_of rate_limited_clip)
               arguments s _ "/videos/clip_audio.mp3" ltac:(discriminate)
               (Hpath _ eq_refl)
               ltac:(apply run_eta; vm_compute; reflexivity)).
    vm_compute. reflexivity.
Defined.

(** X17. Without [ffprobe] and [ffmpeg] (every [subprocess.run]
    raises) the four FFmpeg tools report it in two ways: [get_video_info]
    and [extract_video_audio] answer "Error: " and the message of the
    exception, while [extract_video_frames] and [split_video] only say
    that they failed, the message being lost with the error dictionary of
    the probe. *)
Theorem ffmpeg_tools_without_ffmpeg
    (py : PyLib) (w : World) (arguments : Arguments) (s : state)
    (message : list string -> string) :
  let video_path := get_or (arg_video_path arguments) EmptyString in
  let audio_path :=
    audio_output_path py video_path (arg_output_path arguments) in
  let answer := fun name => response_text (call_tool py w name arguments s) in
  (forall h cmd, subprocess_run w h cmd = Raise (message cmd)) ->
  (forall h d, os_makedirs w h d = Ok tt) ->
  file_precheck_passes w arguments s ->
  answer "get_video_info" = Ok ["Error: " ++ message (duration_cmd video_path)]
  /\ answer "extract_video_audio"
     = Ok ["Error: " ++ message (audio_cmd video_path audio_path)]
  /\ answer "extract_video_frames"
     = Ok ["Error: Failed to extract frames from video."]
  /\ answer "split_video"
     = Ok ["Error: Failed to split video into segments."].
Proof.
  intros video_path audio_path answer Hrun Hmk Hpath.
  assert (Hinfo : forall s0,
             get_video_info py w video_path s0
             = (Ok (InfoError (message (duration_cmd video_path)) video_path),
                {| ai_analyzer := ai_analyzer s0;
                   trace := (trace s0
                             ++ [Run (duration_cmd video_path)])%list |})).
  { intro s0. unfold get_video_info, try_except, bind at 1, run, perform.
    now rewrite Hrun. }
  unfold answer; repeat split; unfold response_text;
    (rewrite call_tool_after_prechecks; [|now left|exact Hpath]);
    fold video_path.
  - change (route py w "get_video_info" arguments video_path)
      with (tool_get_video_info py w video_path).
    unfold tool_get_video_info. now rewrite (run_bind _ _ _ _ _ (Hinfo s)).
  - change (route py w "extract_video_audio" arguments video_path)
      with (tool_extract_video_audio py w arguments video_path).
    unfold tool_extract_video_audio, bind at 1, extract_audio, bind at 1,
      run, perform.
    now rewrite Hrun.
  - change (route py w "extract_video_frames" arguments video_path)
      with (tool_extract_video_frames py w arguments video_path).
    unfold tool_extract_video_frames.
    rewrite (run_bind _ _ _ _ _
               (extract_frames_stops py w video_path _ _ s _
                  (InfoError (message (duration_cmd video_path)) video_path)
                  (Hmk _ _) (Hinfo _) I)).
    reflexivity.
  - change (route py w "split_video" arguments video_path)
      with (tool_split_video py w arguments video_path).
    unfold tool_split_video, bind at 1, split_video.
    rewrite (run_bind _ _ s
               (after_makedirs s (default_output_dir py video_path
                                    (arg_output_dir arguments))) tt).
    2:{ unfold makedirs, perform, after_makedirs. now rewrite Hmk. }
    now rewrite (run_bind _ _ _ _ _ (Hinfo _)).
Qed.

Lemma ffmpeg_tools_without_ffmpeg_witness :
  let w := no_ffmpeg (world_of clip) in
  let arguments := video_arguments "/videos/clip.mp4" None None in
  let answer := fun name =>
    response_text (call_tool cpython w name arguments fresh) in
  file_precheck_passes w arguments fresh
  /\ answer "get_video_info"
     = Ok ["Error: [Errno 2] No such file or directory: 'ffprobe'"]
  /\ answer "extract_video_audio"
     = Ok ["Error: [Errno 2] No such file or directory: 'ffmpeg'"]
  /\ answer "extract_video_frames"
     = Ok ["Error: Failed to extract frames from video."]
  /\ answer "split_video" = Ok ["Error: Failed to split video into segments."].
Proof.
  intros w arguments answer.
  assert (Hpath : file_precheck_passes w arguments fresh)
    by (intros p [= <-]; now right).
  split; [exact Hpath|].
  exact (ffmpeg_tools_without_ffmpeg cpython w arguments fresh
           (fun cmd => "[Errno 2] No such file or directory: '"
                       ++ hd EmptyString cmd ++ "'")
           (fun _ _ => eq_refl) (fun _ _ => eq_refl) Hpath).
Defined.

(** ** The defaults of the schema *)

Ltac same_route :=
  apply call_tool_ext; [reflexivity|intro; reflexivity].

(** X18. An argument left out behaves as the default its schema
    declares: [num_frames] and [segment_duration] on the tools that
    declare them, [quality] on [download_youtube_video] and [prompt] on
    [analyze_video]. *)
Theorem omitted_arguments_take_declared_defaults
    (py : PyLib) (w : World) (name : string) (arguments : Arguments)
    (s : state) :
  (forall d lo hi,
     declared_param name "num_frames" = Some (IntegerParam d lo hi) ->
     call_tool py w name (set_num_frames arguments None) s
     = call_tool py w name (set_num_frames arguments (Some d)) s)
  /\ (forall d lo hi,
        declared_param name "segment_duration" = Some (IntegerParam d lo hi) ->
        call_tool py w name (set_segment_duration arguments None) s
        = call_tool py w name (set_segment_duration arguments (Some d)) s)
  /\ (forall d e,
        declared_param name "quality" = Some (StringParam (Some d) e) ->
        call_tool py w name (set_quality arguments None) s
        = call_tool py w name (set_quality arguments (Some d)) s)
  /\ (forall d e,
        declared_param name "prompt" = Some (StringParam (Some d) e) ->
        call_tool py w name (set_prompt arguments None) s
        = call_tool py w name (set_prompt arguments (Some d)) s).
Proof.
  unfold declared_param.
  destruct (find_tool list_tools name) as [t|] eqn:Ht;
    [|repeat split; intros; discriminate].
  apply find_tool_some in Ht. destruct Ht as [Hin <-]. simpl in Hin.
  repeat (destruct Hin as [<-|Hin]; [|]); try contradiction;
    cbn [tool_name properties];
    (repeat split; intros ? ? ?; try intros ?;
     match goal with
     | H : find_param _ _ = Some _ |- _ => vm_compute in H
     end;
     try discriminate;
     match goal with
     | H : Some _ = Some _ |- _ => injection H as <-
     end; subst; same_route).
Qed.

Lemma omitted_arguments_take_declared_defaults_witness :
  let w := world_of clip in
  let arguments := video_arguments "/videos/clip.mp4" None None in
  declared_param "split_video" "segment_duration"
  = Some (IntegerParam 60 10 300)
  /\ call_tool cpython w "split_video"
       (set_segment_duration arguments None) fresh
     = call_tool cpython w "split_video"
         (set_segment_duration arguments (Some 60%Z)) fresh.
Proof.
  intros w arguments. split; [reflexivity|].
  exact (proj1 (proj2 (omitted_arguments_take_declared_defaults cpython w
                         "split_video" arguments fresh))
           60%Z 10%Z 300%Z eq_refl).
Defined.

(** ** AIAnalyzer.analyze_frames *)

Lemma read_loop_trace (py : PyLib) (w : World) :
  (forall h f, exists b, read_bytes w h f = Ok b) ->
  forall (l : list string) (acc : list string) (s : state),
  exists urls s',
    for_each
      (fun content frame_path =>
         (bytes <- perform (ReadFile frame_path)
                     (fun h => read_bytes w h frame_path) ;;
          ret (content
               ++ [("data:image/jpeg;base64," ++ b64encode py bytes)%string])%list)%monad)
      l acc s = (Ok (acc ++ urls)%list, s')
    /\ extends_by s s' (map ReadFile l)
    /\ List.length urls = List.length l
    /\ Forall (fun u => startswith u "data:image/jpeg;base64," = true) urls.
Proof.
  intros Hread l. induction l as [|f l IH]; intros acc s;
    cbn [for_each map List.length].
  - exists [], s. rewrite app_nil_r.
    repeat split; [now rewrite app_nil_r|constructor].
  - destruct (Hread (trace s) f) as [b Hb].
    unfold bind at 1, bind at 1, perform at 1. rewrite Hb. unfold ret at 1.
    match goal with
    | |- context [for_each _ l ?a ?s1] =>
        destruct (IH a s1) as (urls & s' & E & [Htr Hai] & Hlen & Hpre)
    end.
    exists (("data:image/jpeg;base64," ++ b64encode py b) :: urls), s'.
    rewrite E, <- app_assoc. repeat split.
    + rewrite Htr. cbn [trace]. now rewrite <- app_assoc.
    + exact Hai.
    + cbn [List.length]. now rewrite Hlen.
    + constructor; [|exact Hpre].
      unfold startswith. apply prefix_append.
Qed.

(** X19. When the frame files can be read, [analyze_frames] reads each
    of them once, in order, and then sends one request with the prompt
    and one JPEG data URL per frame; the answer is the text of the
    completion, the empty string if there is none, and an exception of
    the request is raised as it is. *)
Theorem analyze_frames_sends_one_request
    (py : PyLib) (w : World) (frame_paths : list string)
    (prompt model : string) (s : state) :
  (forall h f, exists b, read_bytes w h f = Ok b) ->
  exists urls s',
    List.length urls = List.length frame_paths
    /\ Forall (fun u => startswith u "data:image/jpeg;base64," = true) urls
    /\ extends_by s s'
         (map ReadFile frame_paths ++ [ChatCompletion model prompt urls])
    /\ analyze_frames py w frame_paths prompt model s
       = (match chat_completions_create w
                  (trace s ++ map ReadFile frame_paths)%list model prompt urls
          with
          | Ok content => Ok (get_or content EmptyString)
          | Raise e => Raise e
          end, s').
Proof.
  intros Hread.
  destruct (read_loop_trace py w Hread frame_paths [] s)
    as (urls & s1 & E & [Htr Hai] & Hlen & Hpre).
  exists urls. eexists. split; [exact Hlen|]. split; [exact Hpre|].
  split.
  2:{ unfold analyze_frames. rewrite (run_bind _ _ _ _ _ E). cbn [app].
      unfold bind, perform, ret. rewrite Htr.
      destruct (chat_completions_create w _ model prompt urls);
        reflexivity. }
  split; cbn [trace ai_analyzer]; [|exact Hai].
  now rewrite <- app_assoc.
Qed.

Lemma analyze_frames_sends_one_request_witness :
  let w := world_of clip in
  let frame_paths := ["/videos/a.jpg"; "/videos/b.jpg"] in
  (forall h f, exists b, read_bytes w h f = Ok b)
  /\ exists urls s',
       List.length urls = 2%nat
       /\ extends_by fresh s'
            [ReadFile "/videos/a.jpg"; ReadFile "/videos/b.jpg";
             ChatCompletion VISION_MODEL "What is this?" urls]
       /\ analyze_frames cpython w frame_paths "What is this?" VISION_MODEL
            fresh
          = (Ok "A cat crosses a street.", s').
Proof.
  intros w frame_paths.
  assert (Hread : forall h f, exists b, read_bytes w h f = Ok b)
    by (intros; eexists; reflexivity).
  split; [exact Hread|].
  destruct (analyze_frames_sends_one_request cpython w frame_paths
              "What is this?" VISION_MODEL fresh Hread)
    as (urls & s' & Hlen & _ & Htr & E).
  exists urls, s'. split; [exact Hlen|]. split; [exact Htr|exact E].
Defined.

(** ** get_video_info: the size *)



(** ** list_tools *)

(** X21. The catalog is consistent: the ten names are distinct, every
    required key is a declared parameter, every integer parameter has its
    default within its bounds, every enumerated parameter has its default
    among the allowed values, and the four AI tools are tools of the
    catalog that take a [video_path]. *)
Theorem catalog_is_consistent (t : Tool) (name : string) :
  NoDup (map tool_name list_tools)
  /\ List.length list_tools = 10%nat
  /\ (In t list_tools ->
      incl (required t) (map fst (properties t))
      /\ Forall (fun kp => param_consistent (snd kp)) (properties t))
  /\ (is_ai_tool name = true -> declares name "video_path" = true).
Proof.
  split; [|split; [reflexivity|split]].
  - vm_compute. repeat constructor; simpl; intuition discriminate.
  - simpl. intros Hin.
    repeat (destruct Hin as [<-|Hin]; [|]); try contradiction;
      (split;
       [intros k Hk; simpl in Hk |- *; tauto
       |repeat constructor; simpl; try lia; tauto]).
  - unfold is_ai_tool. cbn [existsb]. intros H.
    repeat match goal with
           | H : context [String.eqb name ?lit] |- _ =>
               destruct (String.eqb_spec name lit) as [E|_];
               [rewrite E; reflexivity|cbn [orb] in H]
           end.
    discriminate H.
Qed.

Lemma catalog_is_consistent_witness :
  let t := {| tool_name := "summarize_video";
              properties := [video_path_param;
                             ("num_frames", IntegerParam 8 3 10)];
              required := ["video_path"] |} in
  In t list_tools
  /\ is_ai_tool "summarize_video" = true
  /\ incl (required t) (map fst (properties t))
  /\ Forall (fun kp => param_consistent (snd kp)) (properties t)
  /\ declares "summarize_video" "video_path" = true.
Proof.
  intro t.
  assert (Hin : In t list_tools) by (simpl; tauto).
  destruct (catalog_is_consistent t "summarize_video")
    as (_ & _ & Htool & Hai).
  destruct (Htool Hin) as [Hreq Hparams].
  split; [exact Hin|]. split; [reflexivity|]. split; [exact Hreq|].
  split; [exact Hparams|exact (Hai eq_refl)].
Defined.

(** ** YouTube tools: a duration that is None *)

(** X22. [info.get("duration", 0)] gives 0 for an absent key only.  For
    a video whose duration is [None] (the key is there), [get_youtube_info]
    divides it by 60 and answers with the text of the [TypeError], while
    the report of [download_youtube_video] guards the division and prints
    "None seconds" with 0 minutes. *)
Theorem youtube_duration_none
    (py : PyLib) (w : World) (arguments : Arguments) (s s1 : state)
    (url : string) :
  arg_url arguments = Some url ->
  url <> EmptyString ->
  file_precheck_passes w arguments s ->
  (forall r,
     get_video_info_url w url s = (Ok (RemoteInfo r), s1) ->
     yt_duration r = PNone ->
     call_tool py w "get_youtube_info" arguments s
     = (Ok (text_content
              "Error: unsupported operand type(s) for /: 'NoneType' and 'int'"),
        s1))
  /\ (forall d,
        download_video py w url (arg_output_dir arguments)
          (get_or (arg_quality arguments) "720p") s
        = (Ok (Downloaded d), s1) ->
        dl_duration d = PNone ->
        call_tool py w "download_youtube_video" arguments s
        = (Ok (text_content
                 ("Successfully downloaded YouTube video!"
                  ++ nl ++ nl ++ "Title: " ++ py_str py (dl_title d)
                  ++ nl ++ "Duration: None seconds ("
                  ++ format_1f py 0 ++ " minutes)"
                  ++ nl ++ "Uploader: " ++ py_str py (dl_uploader d)
                  ++ nl ++ "Saved to: " ++ dl_video_path d
                  ++ nl ++ nl ++ "You can now analyze this video:"
                  ++ nl ++ "- Extract frames: extract_video_frames"
                  ++ nl ++ "- Extract audio: extract_video_audio"
                  ++ nl ++ "- Get info: get_video_info"
                  ++ nl ++ "- AI analysis: analyze_video (requires API key)")),
           s1)).
Proof.
  intros Hurl Hne Hpath. apply String.eqb_neq in Hne. split.
  - intros r Hinfo Hdur.
    rewrite call_tool_after_prechecks; [|now left|exact Hpath].
    change (route py w "get_youtube_info" arguments ?vp)
      with (tool_get_youtube_info py w arguments).
    unfold tool_get_youtube_info. rewrite Hurl. cbn [get_or]. rewrite Hne.
    rewrite (run_bind _ _ _ _ _ Hinfo).
    unfold lift, youtube_information. now rewrite Hdur.
  - intros d Hdl Hdur.
    rewrite call_tool_after_prechecks; [|now left|exact Hpath].
    change (route py w "download_youtube_video" arguments ?vp)
      with (tool_download_youtube_video py w arguments).
    unfold tool_download_youtube_video. rewrite Hurl. cbn [get_or].
    rewrite Hne. rewrite (run_bind _ _ _ _ _ Hdl).
    unfold lift, download_report. now rewrite Hdur.
Qed.

Lemma youtube_duration_none_witness :
  let w := world_of live_stream in
  let arguments := url_arguments "https://youtu.be/x" in
  file_precheck_passes w arguments fresh
  /\ response_text (call_tool cpython w "get_youtube_info" arguments fresh)
     = Ok ["Error: unsupported operand type(s) for /: 'NoneType' and 'int'"]
  /\ response_text
       (call_tool cpython w "download_youtube_video" arguments fresh)
     = Ok ["Successfully downloaded YouTube video!"
           ++ nl ++ nl ++ "Title: Clip"
           ++ nl ++ "Duration: None seconds (0.0 minutes)"
           ++ nl ++ "Uploader: unknown"
           ++ nl ++ "Saved to: /home/user/video-downloads/Clip.mp4"
           ++ nl ++ nl ++ "You can now analyze this video:"
           ++ nl ++ "- Extract frames: extract_video_frames"
           ++ nl ++ "- Extract audio: extract_video_audio"
           ++ nl ++ "- Get info: get_video_info"
           ++ nl ++ "- AI analysis: analyze_video (requires API key)"].
Proof.
  intros w arguments.
  assert (Hpath : file_precheck_passes w arguments fresh)
    by (intros p Hp; discriminate Hp).
  split; [exact Hpath|].
  split; unfold response_text.
  - destruct (get_video_info_url w "https://youtu.be/x" fresh)
      as [r0 s0] eqn:E0.
    assert (Hr : match r0 with
                 | Ok (RemoteInfo r) => yt_duration r = PNone
                 | _ => False
                 end).
    { change r0 with (fst (r0, s0)). rewrite <- E0. vm_compute. reflexivity. }
    destruct r0 as [[r|e]|e]; try contradiction.
    now rewrite (proj1 (youtube_duration_none cpython w arguments fresh s0
                          "https://youtu.be/x" eq_refl ltac:(discriminate)
                          Hpath) r E0 Hr).
  - destruct (download_video cpython w "https://youtu.be/x" None "720p" fresh)
      as [r0 s0] eqn:E0.
    assert (Hr : match r0 with
                 | Ok (Downloaded d) =>
                     dl_duration d = PNone
                     /\ dl_title d = PStr "Clip"
                     /\ dl_uploader d = PStr "unknown"
                     /\ dl_video_path d = "/home/user/video-downloads/Clip.mp4"
                 | _ => False
                 end).
    { change r0 with (fst (r0, s0)). rewrite <- E0. vm_compute.
      repeat split. }
    destruct r0 as [[d|e]|e]; try contradiction.
    destruct Hr as (Hd & Ht & Hu & Hp).
    rewrite (proj2 (youtube_duration_none cpython w arguments fresh s0
                      "https://youtu.be/x" eq_refl ltac:(discriminate)
                      Hpath) d E0 Hd).
    cbn [fst]. rewrite Ht, Hu, Hp. reflexivity.
Defined.
